(** * mqtt-cs: the MQTTClient and MQTTServer wrappers over a paho client

    A shallow embedding of [mqtt/client.py], [mqtt/server.py] and
    [mqtt/__init__.py].

    Python objects live in a heap addressed by position; allocation appends,
    nothing is ever freed.  Instances of the two wrapper classes are attribute
    dictionaries ([self.x = v] inserts into the instance's dictionary), list
    objects are shared by reference, and the paho [Client] handle, which is
    not code of this repository, is an object that records the attributes
    assigned on it and the methods called on it, in order.  Methods are
    computations in a state-and-exception monad over the heap and the
    standard output: the wrappers catch nothing, so what [json.dumps] or a
    call of the library raises ends the method that made the call. *)

From stdpp Require Import gmap strings list.
From Stdlib Require Import ZArith Ascii.

Local Open Scope string_scope.
Local Open Scope Z_scope.

(** ** Values and objects *)

(** Addresses of heap objects. *)
Abbreviation loc := nat.

(** The two instance methods that the constructors hand out as bound
    methods ([self.on_connect], [self.on_disconnect]). *)
Inductive Method := OnConnect | OnDisconnect.

Inductive Value :=
| VNone
| VBool (b : bool)
| VInt (z : Z)
| VStr (s : string)
| VRef (l : loc)
| VBound (m : Method) (self : loc).

#[global] Instance Method_eq_dec : EqDecision Method.
Proof. solve_decision. Defined.

#[global] Instance Value_eq_dec : EqDecision Value.
Proof. solve_decision. Defined.

(** The two classes of [mqtt/__init__.py]. *)
Inductive Class := CMQTTClient | CMQTTServer.

(** Code of a function object.  [CodeClientOnMessage] is the static method
    [MQTTClient.on_message]; [CodeDefaultOnMessage] is the inner function
    [default_on_message] of the [MQTTServer.on_message] getter; any other
    function comes from outside the repository. *)
Inductive Code :=
| CodeClientOnMessage
| CodeDefaultOnMessage
| CodeForeign (name : string).

(** What the wrappers ask of the paho handle. *)
Inductive PahoCall :=
| PConnect (ip : string) (port keepalive : Z)
| PSubscribe (arg : Value) (items : option (list (string * Z)))
| PPublish (topic payload : string)
| PUsernamePwSet (username password : option string).

Record PahoClient := mkPaho {
  paho_client_id : string;
  paho_attrs : gmap string Value;
  paho_calls : list PahoCall
}.

Inductive Obj :=
| OList (items : list (string * Z))
| ODict (entries : gmap string Value)
| OFunction (code : Code)
| OPaho (h : PahoClient)
| OInstance (cls : Class) (attrs : gmap string Value).

Record World := mkWorld {
  heap : list Obj;
  stdout : list string
}.

Record MQTTMessage := mkMsg {
  topic : string;
  payload : string
}.

(** [message: str | dict] of [publish], over a type [D] of dicts. *)
Inductive Message (D : Type) :=
| MStr (s : string)
| MDict (d : D).
Arguments MStr {D} s.
Arguments MDict {D} d.

(** Exceptions: those of the interpreter, and those that [json.dumps] and
    the paho client raise. *)
Inductive Exn :=
| AttributeError
| TypeError
| UnicodeDecodeError
| ValueError
| ConnectionRefusedError.

(** What the wrappers call and do not define.  Of the Python runtime:
    [str.strip]; [json.dumps], which raises on a dict that it cannot
    serialise; and [bytes.decode], which fails on bytes that are not UTF-8.
    Of the paho library: whether a call of [connect], [subscribe] or
    [publish] on a handle returns or raises, and what it raises, given the
    handle as it is before the call (its identifier, its callbacks and every
    call made on it so far). *)
Class PyRuntime := {
  PyDict : Type;
  str_strip : string → string;
  json_dumps : PyDict → Exn + string;
  bytes_decode : string → option string;
  paho_raises : PahoClient → PahoCall → option Exn
}.

(** ** The monad *)

Definition M (A : Type) : Type := World → (Exn + A) * World.

Definition ret {A} (a : A) : M A := λ w, (inr a, w).

Definition raise {A} (e : Exn) : M A := λ w, (inl e, w).

Definition bind {A B} (m : M A) (k : A → M B) : M B :=
  λ w, match m w with
       | (inl e, w') => (inl e, w')
       | (inr a, w') => k a w'
       end.

Declare Scope py_scope.
Delimit Scope py_scope with py.
Notation "x <- m ;; k" := (bind m (λ x, k))
  (at level 100, m at next level, right associativity) : py_scope.
Notation "m ;; k" := (bind m (λ _, k))
  (at level 100, right associativity) : py_scope.
Local Open Scope py_scope.

(** ** Heap primitives

    An address that the running code holds is an address of the heap: a
    [load] outside the heap is an error only so that the functions are
    total. *)

Definition alloc (o : Obj) : M loc :=
  λ w, (inr (length (heap w)), mkWorld (heap w ++ [o]) (stdout w)).

Definition load (l : loc) : M Obj :=
  λ w, match heap w !! l with
       | Some o => (inr o, w)
       | None => (inl TypeError, w)
       end.

Definition store (l : loc) (o : Obj) : M unit :=
  λ w, (inr tt, mkWorld (<[l := o]> (heap w)) (stdout w)).

(** [print(a, b, ...)]: one line, the arguments separated by a space. *)
Definition print (args : list string) : M unit :=
  λ w, (inr tt, mkWorld (heap w) (stdout w ++ [String.concat " " args])).

(** [self.name] for an attribute kept in the instance dictionary. *)
Definition getattr (self : loc) (name : string) : M Value :=
  o <- load self ;;
  match o with
  | OInstance _ attrs =>
      match attrs !! name with
      | Some v => ret v
      | None => raise AttributeError
      end
  | _ => raise AttributeError
  end.

(** [self.name] where the code goes on to use the attribute as a [str]. *)
Definition getattr_str (self : loc) (name : string) : M string :=
  v <- getattr self name ;;
  match v with
  | VStr s => ret s
  | _ => raise TypeError
  end.

(** [self.name = v]. *)
Definition setattr (self : loc) (name : string) (v : Value) : M unit :=
  o <- load self ;;
  match o with
  | OInstance cls attrs => store self (OInstance cls (<[name := v]> attrs))
  | _ => raise AttributeError
  end.

(** Truth value of an object, as [if x] and [x or y] test it. *)
Definition truthy (v : Value) : M bool :=
  match v with
  | VNone => ret false
  | VBool b => ret b
  | VInt z => ret (negb (z =? 0))
  | VStr s => ret (negb (String.eqb s ""))
  | VBound _ _ => ret true
  | VRef l =>
      o <- load l ;;
      match o with
      | OList items => ret (match items with [] => false | _ => true end)
      | ODict entries => ret (negb (bool_decide (entries = ∅)))
      | _ => ret true
      end
  end.

(** Truth value of a [str | None] argument. *)
Definition truthy_str (s : option string) : bool :=
  match s with
  | None => false
  | Some s => negb (String.eqb s "")
  end.

(** ** The paho handle

    [paho.mqtt.client.Client] is the wrapped library.  A handle keeps the
    attributes assigned on it and the calls made on it, in order.
    [username_pw_set] and an assignment of a callback only store what they
    are given; [connect], [subscribe] and [publish] validate their
    arguments and use the network, and raise when either fails. *)

(** [Client(client_id=cid)]: a new handle, no callback set, nothing called. *)
Definition paho_Client (cid : string) : M loc :=
  alloc (OPaho (mkPaho cid ∅ [])).

Definition load_paho (target : Value) : M (loc * PahoClient) :=
  match target with
  | VRef l =>
      o <- load l ;;
      match o with
      | OPaho h => ret (l, h)
      | _ => raise AttributeError
      end
  | _ => raise AttributeError
  end.

(** [target.name = v] on a handle. *)
Definition paho_setattr (target : Value) (name : string) (v : Value) : M unit :=
  p <- load_paho target ;;
  let h := p.2 in
  store p.1 (OPaho (mkPaho (paho_client_id h) (<[name := v]> (paho_attrs h)) (paho_calls h))).

(** A call that only stores, appended to the record of calls of the
    handle. *)
Definition paho_call (target : Value) (c : PahoCall) : M unit :=
  p <- load_paho target ;;
  let h := p.2 in
  store p.1 (OPaho (mkPaho (paho_client_id h) (paho_attrs h) (paho_calls h ++ [c]))).

(** What a value holds when it refers to a list object. *)
Definition list_items (w : World) (v : Value) : option (list (string * Z)) :=
  match v with
  | VRef l =>
      match heap w !! l with
      | Some (OList items) => Some items
      | _ => None
      end
  | _ => None
  end.

(** A call of [connect], [subscribe] or [publish]: it is appended to the
    record of calls of the handle, and then it returns or raises, as the
    library decides. *)
Definition paho_invoke `{PyRuntime} (target : Value) (c : PahoCall) : M unit :=
  p <- load_paho target ;;
  let h := p.2 in
  store p.1 (OPaho (mkPaho (paho_client_id h) (paho_attrs h) (paho_calls h ++ [c]))) ;;
  match paho_raises h c with
  | Some e => raise e
  | None => ret tt
  end.

(** [target.subscribe(arg)]: the call records the argument and, when it is
    a list, what the list holds at the time of the call. *)
Definition paho_subscribe `{PyRuntime} (target arg : Value) : M unit :=
  λ w, paho_invoke target (PSubscribe arg (list_items w arg)) w.

(** ** Module import

    Executing the two class bodies creates, once, the objects that the
    classes hold on to: the list that is the default of the [sub_topics]
    parameter of [MQTTServer.__init__], and the function object of the static
    method [MQTTClient.on_message]. *)

Definition SUB_TOPICS_DEFAULT : loc := 0%nat.
Definition CLIENT_ON_MESSAGE : loc := 1%nat.

Definition import_mqtt : M unit :=
  _ <- alloc (OList [("client/+", 0)]) ;;
  _ <- alloc (OFunction CodeClientOnMessage) ;;
  ret tt.

Definition empty_world : World := mkWorld [] [].

Definition module_world : World := (import_mqtt empty_world).2.

(** The names that each class body defines, one for every [def]. *)
Definition class_names (c : Class) : list string :=
  match c with
  | CMQTTClient =>
      ["__init__"; "connect"; "on_connect"; "on_message"; "on_disconnect"; "publish"]
  | CMQTTServer =>
      ["__init__"; "connect"; "on_connect"; "on_disconnect"; "on_message";
       "default_on_message"; "on_message"; "publish"]
  end.

(** ** mqtt/client.py *)

Module MQTTClient.
Section methods.
Context `{PyRuntime}.

(** [__init__(self, *, client_id, sub_topics=None)]; [self] is the new
    instance, whose reference is the result. *)
Definition __init__ (client_id : string) (sub_topics : option Value) : M loc :=
  let sub_topics := default VNone sub_topics in
  self <- alloc (OInstance CMQTTClient ∅) ;;
  setattr self "client_id" (VStr (str_strip client_id)) ;;
  cid <- getattr_str self "client_id" ;;
  p <- paho_Client cid ;;
  setattr self "mqtt_client" (VRef p) ;;
  mc <- getattr self "mqtt_client" ;;
  paho_setattr mc "on_connect" (VBound OnConnect self) ;;
  mc <- getattr self "mqtt_client" ;;
  paho_setattr mc "on_message" (VRef CLIENT_ON_MESSAGE) ;;
  mc <- getattr self "mqtt_client" ;;
  paho_setattr mc "on_disconnect" (VBound OnDisconnect self) ;;
  setattr self "connected" (VBool false) ;;
  setattr self "sub_topics" sub_topics ;;
  ret self.

(** [connect(self, ip, port=1883, keepalive=60)]. *)
Definition connect (self : loc) (ip : string) (port keepalive : option Z) : M unit :=
  let port := default 1883 port in
  let keepalive := default 60 keepalive in
  mc <- getattr self "mqtt_client" ;;
  paho_invoke mc (PConnect ip port keepalive) ;;
  st <- getattr self "sub_topics" ;;
  b <- truthy st ;;
  if b then
    mc <- getattr self "mqtt_client" ;;
    st <- getattr self "sub_topics" ;;
    paho_subscribe mc st
  else ret tt.

(** [on_connect(self, client, user_data, flags, rc)]. *)
Definition on_connect (self : loc) (client : Value) (user_data : option string)
    (flags : Value) (rc : Z) : M unit :=
  if rc =? 0 then
    setattr self "connected" (VBool true) ;;
    cid <- getattr_str self "client_id" ;;
    print [cid; "connected"]
  else ret tt.

(** The static method [on_message(client, user_data, msg)]: [pass]. *)
Definition on_message (client : Value) (user_data : option string)
    (msg : MQTTMessage) : M unit :=
  ret tt.

(** [on_disconnect(self, client, user_data, rc)]. *)
Definition on_disconnect (self : loc) (client : Value) (user_data : option string)
    (rc : Z) : M unit :=
  setattr self "connected" (VBool false).

(** [publish(self, message, topic=None)]. *)
Definition publish (self : loc) (message : Message PyDict) (topic : option string)
    : M unit :=
  message <- match message with
             | MDict d =>
                 match json_dumps d with
                 | inr s => ret s
                 | inl e => raise e
                 end
             | MStr s => ret s
             end ;;
  mc <- getattr self "mqtt_client" ;;
  t <- (if truthy_str topic then ret (default "" topic)
        else
          cid <- getattr_str self "client_id" ;;
          ret ("client/" ++ cid)) ;;
  paho_invoke mc (PPublish t message).
End methods.
End MQTTClient.

(** ** mqtt/server.py *)

Module MQTTServer.
Section methods.
Context `{PyRuntime}.

(** The inner function of the [on_message] getter. *)
Definition default_on_message (client : Value) (user_data : option string)
    (msg : MQTTMessage) : M unit :=
  match bytes_decode (payload msg) with
  | Some message =>
      let topic := topic msg in
      print [topic; message]
  | None => raise UnicodeDecodeError
  end.

(** The getter of the property [on_message]: every evaluation of the
    inner [def] makes a new function object, which is returned. *)
Definition on_message (self : loc) : M Value :=
  f <- alloc (OFunction CodeDefaultOnMessage) ;;
  ret (VRef f).

(** The setter of the property [on_message]. *)
Definition on_message_setter (self : loc) (callback : Value) : M unit :=
  ms <- getattr self "mqtt_server" ;;
  paho_setattr ms "on_message" callback.

(** [__init__(self, *, server_id="server", username=None, password=None,
    sub_topics=[('client/+', 0)])]: the default of [sub_topics] is the
    list object made when the class body ran. *)
Definition __init__ (server_id : option string) (username password : option string)
    (sub_topics : option Value) : M loc :=
  let server_id := default "server" server_id in
  let sub_topics := default (VRef SUB_TOPICS_DEFAULT) sub_topics in
  self <- alloc (OInstance CMQTTServer ∅) ;;
  setattr self "server_id" (VStr (str_strip server_id)) ;;
  sid <- getattr_str self "server_id" ;;
  p <- paho_Client sid ;;
  setattr self "mqtt_server" (VRef p) ;;
  (if truthy_str username || truthy_str password then
     ms <- getattr self "mqtt_server" ;;
     paho_call ms (PUsernamePwSet username password)
   else ret tt) ;;
  ms <- getattr self "mqtt_server" ;;
  paho_setattr ms "on_connect" (VBound OnConnect self) ;;
  cb <- on_message self ;;
  ms <- getattr self "mqtt_server" ;;
  paho_setattr ms "on_message" cb ;;
  ms <- getattr self "mqtt_server" ;;
  paho_setattr ms "on_disconnect" (VBound OnDisconnect self) ;;
  setattr self "connected" (VBool false) ;;
  setattr self "sub_topics" sub_topics ;;
  d <- alloc (ODict ∅) ;;
  setattr self "connected_clients" (VRef d) ;;
  ret self.

(** [connect(self, ip, port=1883, keepalive=60)]. *)
Definition connect (self : loc) (ip : string) (port keepalive : option Z) : M unit :=
  let port := default 1883 port in
  let keepalive := default 60 keepalive in
  ms <- getattr self "mqtt_server" ;;
  paho_invoke ms (PConnect ip port keepalive) ;;
  st <- getattr self "sub_topics" ;;
  b <- truthy st ;;
  if b then
    ms <- getattr self "mqtt_server" ;;
    st <- getattr self "sub_topics" ;;
    paho_subscribe ms st
  else ret tt.

(** [on_connect(self, client, user_data, flags, rc)]. *)
Definition on_connect (self : loc) (client : Value) (user_data : option string)
    (flags : Value) (rc : Z) : M unit :=
  if rc =? 0 then
    setattr self "connected" (VBool true) ;;
    sid <- getattr_str self "server_id" ;;
    print [sid; "connected"]
  else ret tt.

(** [on_disconnect(self, client, user_data, rc)]. *)
Definition on_disconnect (self : loc) (client : Value) (user_data : option string)
    (rc : Z) : M unit :=
  setattr self "connected" (VBool false).

(** [publish(self, message, topic=None)]: [pass]. *)
Definition publish (self : loc) (message : Message PyDict) (topic : option string)
    : M unit :=
  ret tt.
End methods.
End MQTTServer.

(** ** What a caller can do with the objects it gets *)

(** A change in place of the list object that [target] refers to:
    [xs.append(x)], [xs.clear()], [xs[:] = ys], ... *)
Definition list_mutate (target : Value)
    (f : list (string * Z) → list (string * Z)) : M unit :=
  match target with
  | VRef l =>
      o <- load l ;;
      match o with
      | OList items => store l (OList (f items))
      | _ => raise AttributeError
      end
  | _ => raise AttributeError
  end.

(** [xs.append(x)]. *)
Definition list_append (target : Value) (x : string * Z) : M unit :=
  list_mutate target (λ items, (items ++ [x])%list).

(** The body of a function object, when it is code of this repository. *)
Definition code_body `{PyRuntime} (c : Code)
    : option (Value → option string → MQTTMessage → M unit) :=
  match c with
  | CodeClientOnMessage => Some MQTTClient.on_message
  | CodeDefaultOnMessage => Some MQTTServer.default_on_message
  | CodeForeign _ => None
  end.

(** The code of the function object that a value refers to. *)
Definition code_of (w : World) (v : Value) : option Code :=
  match v with
  | VRef l =>
      match heap w !! l with
      | Some (OFunction c) => Some c
      | _ => None
      end
  | _ => None
  end.

(** A value of the world [w] refers to nothing outside the heap of [w]. *)
Definition live (w : World) (v : Value) : Prop :=
  match v with
  | VRef l | VBound _ l => (l < length (heap w))%nat
  | _ => True
  end.

(** ** A runtime to evaluate with

    [strip] over the ASCII white space, [json.dumps] on two dicts, [decode]
    on ASCII bytes, and a paho client that checks its arguments as paho does
    and then finds a broker that accepts: where Python, paho and these
    agree. *)

Definition is_space (a : ascii) : bool :=
  let n := Z.of_nat (nat_of_ascii a) in
  ((9 <=? n) && (n <=? 13)) || ((28 <=? n) && (n <=? 32)).

Fixpoint lstrip (s : string) : string :=
  match s with
  | String a s' => if is_space a then lstrip s' else s
  | EmptyString => EmptyString
  end.

Fixpoint rstrip (s : string) : string :=
  match s with
  | String a s' =>
      match rstrip s' with
      | EmptyString => if is_space a then EmptyString else String a EmptyString
      | r => String a r
      end
  | EmptyString => EmptyString
  end.

Fixpoint is_ascii (s : string) : bool :=
  match s with
  | String a s' => (Z.of_nat (nat_of_ascii a) <? 128) && is_ascii s'
  | EmptyString => true
  end.

(** Two dicts: [{}], and [{"a": {1}}], whose value is a set, which
    [json.dumps] refuses. *)
Inductive DemoDict := EmptyDict | SetDict.

Definition demo_json_dumps (d : DemoDict) : Exn + string :=
  match d with
  | EmptyDict => inr "{}"
  | SetDict => inl TypeError
  end.

Fixpoint has_wildcard (s : string) : bool :=
  match s with
  | String a s' => Ascii.eqb a "+" || Ascii.eqb a "#" || has_wildcard s'
  | EmptyString => false
  end.

Definition bad_subscription (item : string * Z) : bool :=
  String.eqb item.1 "" || (item.2 <? 0) || (2 <? item.2).

(** The checks that paho makes before it uses the network: [connect]
    refuses an empty host, a port that is not positive and a negative
    keepalive; [publish] refuses an empty topic and a topic with a wildcard;
    [subscribe] refuses an empty list, an empty topic and a qos outside 0..2
    (the filters are taken to be well formed). *)
Definition demo_paho_raises (h : PahoClient) (c : PahoCall) : option Exn :=
  match c with
  | PConnect ip port keepalive =>
      if String.eqb ip "" || (port <=? 0) || (keepalive <? 0)
      then Some ValueError else None
  | PPublish topic _ =>
      if String.eqb topic "" || has_wildcard topic then Some ValueError else None
  | PSubscribe _ (Some items) =>
      if match items with [] => true | _ => false end
         || existsb bad_subscription items
      then Some ValueError else None
  | PSubscribe _ None => Some ValueError
  | PUsernamePwSet _ _ => None
  end.

Definition ascii_runtime : PyRuntime := {|
  PyDict := DemoDict;
  str_strip := λ s, rstrip (lstrip s);
  json_dumps := demo_json_dumps;
  bytes_decode := λ b, if is_ascii b then Some b else None;
  paho_raises := demo_paho_raises
|}.

(** ** Observations on a world *)

(** The value of [self.name], read from the instance dictionary. *)
Definition attr (w : World) (self : loc) (name : string) : option Value :=
  match heap w !! self with
  | Some (OInstance _ attrs) => attrs !! name
  | _ => None
  end.

(** The paho handle that a value refers to. *)
Definition handle (w : World) (v : Value) : option PahoClient :=
  match v with
  | VRef l =>
      match heap w !! l with
      | Some (OPaho h) => Some h
      | _ => None
      end
  | _ => None
  end.

(** The handle behind a wrapper: [self.mqtt_client] or [self.mqtt_server]. *)
Definition handle_of (w : World) (self : loc) (field : string) : option PahoClient :=
  v ← attr w self field; handle w v.

Definition is_paho (o : Obj) : bool :=
  match o with
  | OPaho _ => true
  | _ => false
  end.

(** How many paho handles there are. *)
Definition count_handles (w : World) : nat := length (List.filter is_paho (heap w)).

(** ** Both wrappers at once *)

Definition handle_field (cls : Class) : string :=
  match cls with
  | CMQTTClient => "mqtt_client"
  | CMQTTServer => "mqtt_server"
  end.

Definition id_field (cls : Class) : string :=
  match cls with
  | CMQTTClient => "client_id"
  | CMQTTServer => "server_id"
  end.

Definition connect_of `{PyRuntime} (cls : Class)
    : loc → string → option Z → option Z → M unit :=
  match cls with
  | CMQTTClient => MQTTClient.connect
  | CMQTTServer => MQTTServer.connect
  end.

Definition on_connect_of (cls : Class)
    : loc → Value → option string → Value → Z → M unit :=
  match cls with
  | CMQTTClient => MQTTClient.on_connect
  | CMQTTServer => MQTTServer.on_connect
  end.

Definition on_disconnect_of (cls : Class) : loc → Value → option string → Z → M unit :=
  match cls with
  | CMQTTClient => MQTTClient.on_disconnect
  | CMQTTServer => MQTTServer.on_disconnect
  end.

(** The calls made so far on the handle behind a wrapper. *)
Definition calls_of (w : World) (cls : Class) (self : loc) : option (list PahoCall) :=
  paho_calls <$> handle_of w self (handle_field cls).

(** The payload that [publish] computes from its [message], or what
    [json.dumps] raises. *)
Definition payload_of `{PyRuntime} (message : Message PyDict) : Exn + string :=
  match message with
  | MDict d => json_dumps d
  | MStr s => inr s
  end.

(** [h] after one more call. *)
Definition called (h : PahoClient) (cs : list PahoCall) : PahoClient :=
  mkPaho (paho_client_id h) (paho_attrs h) (paho_calls h ++ cs).

(** [w] with the object at [l] replaced. *)
Definition update (w : World) (l : loc) (o : Obj) : World :=
  mkWorld (<[l := o]> (heap w)) (stdout w).

(** ** What the constructors build *)

Section built.
Context `{PyRuntime}.

Definition client_attrs (n : loc) (client_id : string) (sub_topics : Value)
    : gmap string Value :=
  <["sub_topics" := sub_topics]>
    (<["connected" := VBool false]>
       (<["mqtt_client" := VRef (S n)]>
          (<["client_id" := VStr (str_strip client_id)]> ∅))).

Definition client_callbacks (n : loc) : gmap string Value :=
  <["on_disconnect" := VBound OnDisconnect n]>
    (<["on_message" := VRef CLIENT_ON_MESSAGE]>
       (<["on_connect" := VBound OnConnect n]> ∅)).

Definition server_attrs (n : loc) (server_id : string) (sub_topics : Value)
    : gmap string Value :=
  <["connected_clients" := VRef (n + 3)%nat]>
    (<["sub_topics" := sub_topics]>
       (<["connected" := VBool false]>
          (<["mqtt_server" := VRef (S n)]>
             (<["server_id" := VStr (str_strip server_id)]> ∅)))).

Definition server_callbacks (n : loc) : gmap string Value :=
  <["on_disconnect" := VBound OnDisconnect n]>
    (<["on_message" := VRef (n + 2)%nat]>
       (<["on_connect" := VBound OnConnect n]> ∅)).

Definition credentials (username password : option string) : list PahoCall :=
  if truthy_str username || truthy_str password
  then [PUsernamePwSet username password]
  else [].
End built.

(** ** A world to evaluate in

    After [from mqtt import *], [s = MQTTServer()] and
    [c = MQTTClient(client_id=" c1 ")], under the runtime above. *)

Definition demo_script : M (loc * loc) :=
  s <- MQTTServer.__init__ (H := ascii_runtime) None None None None ;;
  c <- MQTTClient.__init__ (H := ascii_runtime) " c1 " None ;;
  ret (s, c).

Definition demo : World := (demo_script module_world).2.

Definition demo_server : loc := 2%nat.
Definition demo_server_handle : loc := 3%nat.
Definition demo_client : loc := 6%nat.
Definition demo_client_handle : loc := 7%nat.

(** ** Sessions and readings that the statements below use *)

(** The calls that the handle of a new server has received when the
    constructor returns. *)
Definition calls_after_init `{PyRuntime} (server_id username password : option string)
    (sub_topics : option Value) (w : World) : option (list PahoCall) :=
  match MQTTServer.__init__ server_id username password sub_topics w with
  | (inr self, w') => calls_of w' CMQTTServer self
  | (inl _, _) => None
  end.

(** Two servers made without a [sub_topics] argument, then a change in place
    of the list that the first one holds. *)
Definition two_servers `{PyRuntime} (id1 u1 p1 id2 u2 p2 : option string)
    (f : list (string * Z) → list (string * Z)) : M (loc * loc) :=
  s1 <- MQTTServer.__init__ id1 u1 p1 None ;;
  s2 <- MQTTServer.__init__ id2 u2 p2 None ;;
  st <- getattr s1 "sub_topics" ;;
  list_mutate st f ;;
  ret (s1, s2).

(** What [self.sub_topics] holds, read through the instance. *)
Definition sub_topics_of (w : World) (self : loc) : option (list (string * Z)) :=
  v ← attr w self "sub_topics"; list_items w v.


(** [server.on_message = c] for each [c] of [cs], in order. *)
Fixpoint assign_all (self : loc) (cs : list Value) : M unit :=
  match cs with
  | [] => ret tt
  | c :: cs' => MQTTServer.on_message_setter self c ;; assign_all self cs'
  end.

(** ** Calls that can raise *)

(** The result of a library call. *)
Definition outcome (r : option Exn) : Exn + unit :=
  match r with
  | Some e => inl e
  | None => inr tt
  end.

(** Calls made one after the other on a handle until one raises: the result
    and the handle afterwards. *)
Fixpoint invoke_all `{PyRuntime} (h : PahoClient) (cs : list PahoCall)
    : (Exn + unit) * PahoClient :=
  match cs with
  | [] => (inr tt, h)
  | c :: cs' =>
      match paho_raises h c with
      | Some e => (inl e, called h [c])
      | None => invoke_all (called h [c]) cs'
      end
  end.

(** ** Sessions

    What happens to a wrapper over its life: the caller calls [connect] and
    [publish], and the library calls back [on_connect] and [on_disconnect],
    in any order and any number of times. *)

Inductive Op (D : Type) :=
| OpConnect (ip : string) (port keepalive : option Z)
| OpOnConnect (client : Value) (user_data : option string) (flags : Value) (rc : Z)
| OpOnDisconnect (client : Value) (user_data : option string) (rc : Z)
| OpPublish (message : Message D) (topic : option string).
Arguments OpConnect {D} ip port keepalive.
Arguments OpOnConnect {D} client user_data flags rc.
Arguments OpOnDisconnect {D} client user_data rc.
Arguments OpPublish {D} message topic.

Definition publish_of `{PyRuntime} (cls : Class)
    : loc → Message PyDict → option string → M unit :=
  match cls with
  | CMQTTClient => MQTTClient.publish
  | CMQTTServer => MQTTServer.publish
  end.

Definition run_op `{PyRuntime} (cls : Class) (self : loc) (op : Op PyDict) : M unit :=
  match op with
  | OpConnect ip port keepalive => connect_of cls self ip port keepalive
  | OpOnConnect client user_data flags rc =>
      on_connect_of cls self client user_data flags rc
  | OpOnDisconnect client user_data rc => on_disconnect_of cls self client user_data rc
  | OpPublish message topic => publish_of cls self message topic
  end.

Fixpoint run_ops `{PyRuntime} (cls : Class) (self : loc) (ops : list (Op PyDict))
    : M unit :=
  match ops with
  | [] => ret tt
  | op :: ops' => run_op cls self op ;; run_ops cls self ops'
  end.

(** What one step of a session does to the [connected] flag, to the calls
    on the handle and to the standard output. *)

Definition flag_step {D} (flag : option Value) (op : Op D) : option Value :=
  match op with
  | OpOnConnect _ _ _ rc => if rc =? 0 then Some (VBool true) else flag
  | OpOnDisconnect _ _ _ => Some (VBool false)
  | _ => flag
  end.

Definition attrs_step {D} (attrs : gmap string Value) (op : Op D) : gmap string Value :=
  match op with
  | OpOnConnect _ _ _ rc => if rc =? 0 then <["connected" := VBool true]> attrs else attrs
  | OpOnDisconnect _ _ _ => <["connected" := VBool false]> attrs
  | _ => attrs
  end.

(** The [subscribe] call that [connect] adds for [sub_topics]. *)
Definition subscription (w : World) (st : Value) : list PahoCall :=
  match list_items w st with
  | Some (x :: xs) => [PSubscribe st (Some (x :: xs))]
  | _ => []
  end.

(** The topic that [MQTTClient.publish] publishes on. *)
Definition topic_of (id : string) (topic : option string) : string :=
  if truthy_str topic then default "" topic else "client/" ++ id.

(** The [publish] call that [MQTTClient.publish] makes: none when
    [json.dumps] raises. *)
Definition publication `{PyRuntime} (id : string) (message : Message PyDict)
    (topic : option string) : list PahoCall :=
  match payload_of message with
  | inr payload => [PPublish (topic_of id topic) payload]
  | inl _ => []
  end.

(** The calls on the handle that a step makes when each of them returns. *)
Definition op_calls `{PyRuntime} (cls : Class) (id : string) (w : World) (st : Value)
    (op : Op PyDict) : list PahoCall :=
  match op with
  | OpConnect ip port keepalive =>
      PConnect ip (default 1883 port) (default 60 keepalive) :: subscription w st
  | OpPublish message topic =>
      match cls with
      | CMQTTClient => publication id message topic
      | CMQTTServer => []
      end
  | _ => []
  end.

(** The steps that call [json.dumps] or the library. *)
Definition library_step {D} (op : Op D) : bool :=
  match op with
  | OpConnect _ _ _ | OpPublish _ _ => true
  | _ => false
  end.

Definition op_lines {D} (id : string) (op : Op D) : list string :=
  match op with
  | OpOnConnect _ _ _ rc => if rc =? 0 then [id ++ " connected"] else []
  | _ => []
  end.

(** [sub_topics] as the two classes annotate it: [None] or a list. *)
Definition sub_ok (w : World) (st : Value) : Prop :=
  st = VNone ∨ ∃ l items, st = VRef l ∧ heap w !! l = Some (OList items).

(** [w] with the instance at [self], the handle at [p] and the output
    replaced. *)
Definition place (w : World) (self : loc) (cls : Class) (attrs : gmap string Value)
    (p : loc) (h : PahoClient) (out : list string) : World :=
  mkWorld (<[p := OPaho h]> (<[self := OInstance cls attrs]> (heap w))) out.

(** A wrapper of class [cls] at [self], with its identifier, its handle at
    [p] and its [sub_topics]. *)
Record wrapper (w : World) (cls : Class) (self : loc) (attrs : gmap string Value)
    (id : string) (p : loc) (h : PahoClient) (st : Value) : Prop := mkWrapper {
  wrapper_self : heap w !! self = Some (OInstance cls attrs);
  wrapper_id : attrs !! id_field cls = Some (VStr id);
  wrapper_field : attrs !! handle_field cls = Some (VRef p);
  wrapper_handle : heap w !! p = Some (OPaho h);
  wrapper_sub_topics : attrs !! "sub_topics" = Some st;
  wrapper_sub_ok : sub_ok w st
}.

(** Two servers, one after the other. *)
Definition two_new_servers `{PyRuntime} (id1 u1 p1 id2 u2 p2 : option string)
    (st1 st2 : option Value) : M (loc * loc) :=
  s1 <- MQTTServer.__init__ id1 u1 p1 st1 ;;
  s2 <- MQTTServer.__init__ id2 u2 p2 st2 ;;
  ret (s1, s2).

(** [c = MQTTClient(client_id=..., sub_topics=...)] and then
    [c.connect(ip, port, keepalive)]. *)
Definition new_client_connect `{PyRuntime} (client_id : string) (sub_topics : option Value)
    (ip : string) (port keepalive : option Z) : M loc :=
  c <- MQTTClient.__init__ client_id sub_topics ;;
  MQTTClient.connect c ip port keepalive ;;
  ret c.

(** [s = MQTTServer(...)] and then [s.connect(ip, port, keepalive)]. *)
Definition new_server_connect `{PyRuntime} (server_id username password : option string)
    (sub_topics : option Value) (ip : string) (port keepalive : option Z) : M loc :=
  s <- MQTTServer.__init__ server_id username password sub_topics ;;
  MQTTServer.connect s ip port keepalive ;;
  ret s.

(** [c = MQTTClient(client_id=...)] and then [c.publish(message, topic)],
    with no [connect] in between. *)
Definition new_client_publish `{PyRuntime} (client_id : string) (sub_topics : option Value)
    (message : Message PyDict) (topic : option string) : M loc :=
  c <- MQTTClient.__init__ client_id sub_topics ;;
  MQTTClient.publish c message topic ;;
  ret c.

(** [c = MQTTClient(client_id=..., sub_topics=xs)], a change in place of
    [xs] by the caller, and then [c.connect(...)]. *)
Definition client_list_session `{PyRuntime} (client_id : string) (xs : loc)
    (f : list (string * Z) → list (string * Z)) (ip : string)
    (port keepalive : option Z) : M loc :=
  c <- MQTTClient.__init__ client_id (Some (VRef xs)) ;;
  list_mutate (VRef xs) f ;;
  MQTTClient.connect c ip port keepalive ;;
  ret c.

(** Two reads of [server.on_message]. *)
Definition read_twice (self : loc) : M (Value * Value) :=
  a <- MQTTServer.on_message self ;;
  b <- MQTTServer.on_message self ;;
  ret (a, b).

(** A session to evaluate: connect, a successful connection, a publish
    without a topic, a refused reconnection, and a disconnection. *)
Definition demo_ops : list (Op DemoDict) :=
  [OpConnect "10.0.0.1" None None;
   OpOnConnect VNone None VNone 0;
   OpPublish (MStr "hi") None;
   OpOnConnect VNone None VNone 5;
   OpOnDisconnect VNone None 7].

(** ** Running the primitives

    Equations for one step on a heap [h ++ l], where [h] is what was there
    before and [l] is what the running code has allocated. *)

Lemma bind_ok {A B} (m : M A) (k : A → M B) w a w' :
  m w = (inr a, w') → bind m k w = k a w'.
Proof. intros E. unfold bind. by rewrite E. Qed.

Lemma bind_raise {A B} (m : M A) (k : A → M B) w e w' :
  m w = (inl e, w') → bind m k w = (inl e, w').
Proof. intros E. unfold bind. by rewrite E. Qed.

Lemma bind_assoc {A B C} (m : M A) (f : A → M B) (g : B → M C) w :
  bind (bind m f) g w = bind m (λ x, bind (f x) g) w.
Proof. unfold bind. by destruct (m w) as [[e|a] w']. Qed.

Lemma bind_ret {A B} (a : A) (k : A → M B) w : bind (ret a) k w = k a w.
Proof. reflexivity. Qed.

Section steps.
Variables (h : list Obj) (out : list string).

Lemma alloc_app l o :
  alloc o (mkWorld (h ++ l) out)
  = (inr (length h + length l)%nat, mkWorld (h ++ (l ++ [o])) out).
Proof. unfold alloc. cbn. by rewrite length_app, app_assoc. Qed.

Lemma load_app l k o :
  l !! k = Some o →
  load (length h + k)%nat (mkWorld (h ++ l) out) = (inr o, mkWorld (h ++ l) out).
Proof.
  intros E. unfold load. cbn.
  rewrite lookup_app_r by lia.
  replace (length h + k - length h)%nat with k by lia.
  by rewrite E.
Qed.

Lemma store_app l k o :
  store (length h + k)%nat o (mkWorld (h ++ l) out)
  = (inr tt, mkWorld (h ++ <[k := o]> l) out).
Proof. unfold store. cbn. by rewrite insert_app_r. Qed.

Lemma getattr_app l k cls attrs name v :
  l !! k = Some (OInstance cls attrs) →
  attrs !! name = Some v →
  getattr (length h + k)%nat name (mkWorld (h ++ l) out)
  = (inr v, mkWorld (h ++ l) out).
Proof.
  intros E1 E2. unfold getattr.
  rewrite (bind_ok _ _ _ _ _ (load_app _ _ _ E1)). by rewrite E2.
Qed.

Lemma getattr_str_app l k cls attrs name s :
  l !! k = Some (OInstance cls attrs) →
  attrs !! name = Some (VStr s) →
  getattr_str (length h + k)%nat name (mkWorld (h ++ l) out)
  = (inr s, mkWorld (h ++ l) out).
Proof.
  intros E1 E2. unfold getattr_str.
  by rewrite (bind_ok _ _ _ _ _ (getattr_app _ _ _ _ _ _ E1 E2)).
Qed.

Lemma setattr_app l k cls attrs name v :
  l !! k = Some (OInstance cls attrs) →
  setattr (length h + k)%nat name v (mkWorld (h ++ l) out)
  = (inr tt, mkWorld (h ++ <[k := OInstance cls (<[name := v]> attrs)]> l) out).
Proof.
  intros E. unfold setattr.
  rewrite (bind_ok _ _ _ _ _ (load_app _ _ _ E)). apply store_app.
Qed.

Lemma load_paho_app l k p :
  l !! k = Some (OPaho p) →
  load_paho (VRef (length h + k)%nat) (mkWorld (h ++ l) out)
  = (inr ((length h + k)%nat, p), mkWorld (h ++ l) out).
Proof.
  intros E. unfold load_paho.
  by rewrite (bind_ok _ _ _ _ _ (load_app _ _ _ E)).
Qed.

Lemma paho_setattr_app l k p name v :
  l !! k = Some (OPaho p) →
  paho_setattr (VRef (length h + k)%nat) name v (mkWorld (h ++ l) out)
  = (inr tt,
     mkWorld (h ++ <[k := OPaho (mkPaho (paho_client_id p)
                                   (<[name := v]> (paho_attrs p))
                                   (paho_calls p))]> l) out).
Proof.
  intros E. unfold paho_setattr.
  rewrite (bind_ok _ _ _ _ _ (load_paho_app _ _ _ E)). apply store_app.
Qed.

Lemma paho_call_app l k p c :
  l !! k = Some (OPaho p) →
  paho_call (VRef (length h + k)%nat) c (mkWorld (h ++ l) out)
  = (inr tt,
     mkWorld (h ++ <[k := OPaho (mkPaho (paho_client_id p) (paho_attrs p)
                                   (paho_calls p ++ [c]))]> l) out).
Proof.
  intros E. unfold paho_call.
  rewrite (bind_ok _ _ _ _ _ (load_paho_app _ _ _ E)). apply store_app.
Qed.

Lemma server_on_message_app l self :
  MQTTServer.on_message self (mkWorld (h ++ l) out)
  = (inr (VRef (length h + length l)%nat),
     mkWorld (h ++ (l ++ [OFunction CodeDefaultOnMessage])) out).
Proof.
  unfold MQTTServer.on_message.
  by rewrite (bind_ok _ _ _ _ _ (alloc_app _ _)).
Qed.
End steps.

Ltac prim :=
  first
    [ apply alloc_app
    | apply server_on_message_app
    | eapply getattr_str_app; reflexivity
    | eapply getattr_app; reflexivity
    | eapply setattr_app; reflexivity
    | eapply paho_setattr_app; reflexivity
    | eapply paho_call_app; reflexivity ].

Ltac step :=
  etrans; [eapply bind_ok; prim|];
  cbn [paho_client_id paho_attrs paho_calls length app].

(** ** The constructors, run *)

Section constructors.
Context `{PyRuntime}.

Lemma client_init_run client_id sub_topics w :
  MQTTClient.__init__ client_id sub_topics w
  = (inr (length (heap w)),
     mkWorld
       (heap w ++
          [OInstance CMQTTClient
             (client_attrs (length (heap w)) client_id (default VNone sub_topics));
           OPaho (mkPaho (str_strip client_id)
                    (client_callbacks (length (heap w))) [])])
       (stdout w)).
Proof.
  destruct w as [h out]. cbn [heap stdout].
  rewrite <- (app_nil_r h) at 1.
  unfold MQTTClient.__init__.
  do 13 step.
  unfold ret, client_attrs, client_callbacks. cbn.
  rewrite !Nat.add_0_r, Nat.add_1_r. reflexivity.
Qed.

Lemma server_init_run server_id username password sub_topics w :
  MQTTServer.__init__ server_id username password sub_topics w
  = (inr (length (heap w)),
     mkWorld
       (heap w ++
          [OInstance CMQTTServer
             (server_attrs (length (heap w)) (default "server" server_id)
                (default (VRef SUB_TOPICS_DEFAULT) sub_topics));
           OPaho (mkPaho (str_strip (default "server" server_id))
                    (server_callbacks (length (heap w)))
                    (credentials username password));
           OFunction CodeDefaultOnMessage;
           ODict ∅])
       (stdout w)).
Proof.
  destruct w as [h out]. cbn [heap stdout].
  rewrite <- (app_nil_r h) at 1.
  unfold MQTTServer.__init__, credentials.
  do 5 step.
  destruct (truthy_str username || truthy_str password).
  - rewrite bind_assoc. do 13 step.
    unfold ret, server_attrs, server_callbacks. cbn.
    rewrite !Nat.add_0_r, Nat.add_1_r. reflexivity.
  - rewrite bind_ret. do 11 step.
    unfold ret, server_attrs, server_callbacks. cbn.
    rewrite !Nat.add_0_r, Nat.add_1_r. reflexivity.
Qed.
End constructors.

(** ** Running the primitives on a wrapper that is already there *)

Section running.
Variable w : World.

Lemma getattr_ok self cls attrs name v :
  heap w !! self = Some (OInstance cls attrs) →
  attrs !! name = Some v →
  getattr self name w = (inr v, w).
Proof. intros E1 E2. unfold getattr, bind, load. by rewrite E1, E2. Qed.

Lemma getattr_str_ok self cls attrs name s :
  heap w !! self = Some (OInstance cls attrs) →
  attrs !! name = Some (VStr s) →
  getattr_str self name w = (inr s, w).
Proof.
  intros E1 E2. unfold getattr_str.
  by rewrite (bind_ok _ _ _ _ _ (getattr_ok _ _ _ _ _ E1 E2)).
Qed.

Lemma setattr_ok self cls attrs name v :
  heap w !! self = Some (OInstance cls attrs) →
  setattr self name v w
  = (inr tt, update w self (OInstance cls (<[name := v]> attrs))).
Proof. intros E. unfold setattr, bind, load. by rewrite E. Qed.

Lemma list_mutate_ok l items f :
  heap w !! l = Some (OList items) →
  list_mutate (VRef l) f w = (inr tt, update w l (OList (f items))).
Proof. intros E. unfold list_mutate, bind, load. by rewrite E. Qed.

Lemma paho_call_ok p h c :
  heap w !! p = Some (OPaho h) →
  paho_call (VRef p) c w = (inr tt, update w p (OPaho (called h [c]))).
Proof. intros E. unfold paho_call, load_paho, bind, load. by rewrite E. Qed.

Lemma paho_invoke_ok `{PyRuntime} p h c :
  heap w !! p = Some (OPaho h) →
  paho_invoke (VRef p) c w
  = (outcome (paho_raises h c), update w p (OPaho (called h [c]))).
Proof.
  intros E. unfold paho_invoke, load_paho, bind, load, store, outcome. rewrite E.
  cbn. by destruct (paho_raises h c).
Qed.

Lemma paho_setattr_ok p h name v :
  heap w !! p = Some (OPaho h) →
  paho_setattr (VRef p) name v w
  = (inr tt,
     update w p (OPaho (mkPaho (paho_client_id h) (<[name := v]> (paho_attrs h))
                          (paho_calls h)))).
Proof. intros E. unfold paho_setattr, load_paho, bind, load. by rewrite E. Qed.

(** Replacing a handle by a handle changes no truth value and no list. *)
Lemma truthy_update p h h' v b :
  heap w !! p = Some (OPaho h) →
  truthy v w = (inr b, w) →
  truthy v (update w p (OPaho h')) = (inr b, update w p (OPaho h')).
Proof.
  intros Ep Ev.
  destruct v as [| | | |l|]; unfold truthy, ret in *; try (by simplify_eq).
  unfold bind, load, update in *. cbn [heap] in *.
  destruct (decide (p = l)) as [->|Hne].
  - rewrite list_lookup_insert_eq by (by eapply lookup_lt_Some).
    rewrite Ep in Ev. by simplify_eq.
  - rewrite list_lookup_insert_ne by done.
    revert Ev. destruct (heap w !! l) as [[]|]; intros Ev; by simplify_eq.
Qed.

Lemma list_items_update p h h' v :
  heap w !! p = Some (OPaho h) →
  list_items (update w p (OPaho h')) v = list_items w v.
Proof.
  intros Ep. destruct v as [| | | |l|]; cbn; try done.
  destruct (decide (p = l)) as [->|Hne].
  - rewrite list_lookup_insert_eq by (by eapply lookup_lt_Some). by rewrite Ep.
  - by rewrite list_lookup_insert_ne.
Qed.

Lemma lookup_update_eq l o o' :
  heap w !! l = Some o → heap (update w l o') !! l = Some o'.
Proof. intros E. cbn. apply list_lookup_insert_eq. by eapply lookup_lt_Some. Qed.

Lemma lookup_update_ne l l' o' :
  l ≠ l' → heap (update w l o') !! l' = heap w !! l'.
Proof. intros E. cbn. by apply list_lookup_insert_ne. Qed.

Lemma update_update l o o' : update (update w l o) l o' = update w l o'.
Proof. unfold update. cbn. by rewrite list_insert_insert_eq. Qed.
End running.

(** ** connect, run *)

Lemma connect_run `{PyRuntime} cls w self attrs p h st b ip port keepalive :
  heap w !! self = Some (OInstance cls attrs) →
  attrs !! handle_field cls = Some (VRef p) →
  heap w !! p = Some (OPaho h) →
  attrs !! "sub_topics" = Some st →
  truthy st w = (inr b, w) →
  connect_of cls self ip port keepalive w
  = ((invoke_all h (PConnect ip (default 1883 port) (default 60 keepalive)
                    :: if b then [PSubscribe st (list_items w st)] else [])).1,
     update w p
       (OPaho (invoke_all h (PConnect ip (default 1883 port) (default 60 keepalive)
                             :: if b then [PSubscribe st (list_items w st)] else [])).2)).
Proof.
  intros Es Ef Ep Est Eb.
  assert (Hne : p ≠ self) by (intros ->; congruence).
  set (c := PConnect ip (default 1883 port) (default 60 keepalive)).
  pose (w1 := update w p (OPaho (called h [c]))).
  assert (Es1 : heap w1 !! self = Some (OInstance cls attrs))
    by (unfold w1; by rewrite lookup_update_ne).
  assert (Ep1 : heap w1 !! p = Some (OPaho (called h [c])))
    by (unfold w1; by eapply lookup_update_eq).
  assert (R : ∀ field, attrs !! field = Some (VRef p) →
      (mc <- getattr self field ;;
       paho_invoke mc c ;;
       st <- getattr self "sub_topics" ;;
       b <- truthy st ;;
       if b then
         mc <- getattr self field ;;
         st <- getattr self "sub_topics" ;;
         paho_subscribe mc st
       else ret tt) w
      = ((invoke_all h (c :: if b then [PSubscribe st (list_items w st)] else [])).1,
         update w p
           (OPaho (invoke_all h
                     (c :: if b then [PSubscribe st (list_items w st)] else [])).2))).
  { intros field Ef'.
    rewrite (bind_ok _ _ _ _ _ (getattr_ok _ _ _ _ _ _ Es Ef')).
    pose proof (paho_invoke_ok w p h c Ep) as Hc.
    cbn [invoke_all]. destruct (paho_raises h c) as [e|]; cbn [outcome] in Hc.
    { by rewrite (bind_raise _ _ _ _ _ Hc). }
    rewrite (bind_ok _ _ _ _ _ Hc).
    rewrite (bind_ok _ _ _ _ _ (getattr_ok w1 _ _ _ _ _ Es1 Est)).
    rewrite (bind_ok _ _ _ _ _ (truthy_update _ _ _ (called h [c]) _ _ Ep Eb)).
    destruct b; [|reflexivity].
    rewrite (bind_ok _ _ _ _ _ (getattr_ok w1 _ _ _ _ _ Es1 Ef')).
    rewrite (bind_ok _ _ _ _ _ (getattr_ok w1 _ _ _ _ _ Es1 Est)).
    unfold paho_subscribe.
    rewrite (paho_invoke_ok w1 _ _ _ Ep1).
    unfold w1. rewrite update_update, (list_items_update _ _ _ _ _ Ep).
    cbn [invoke_all]. unfold outcome.
    by destruct (paho_raises (called h [c]) (PSubscribe st (list_items w st))). }
  destruct cls; apply R, Ef.
Qed.

(** ** The other methods, run *)

Lemma client_publish_run `{PyRuntime} w self attrs p h cid message topic :
  heap w !! self = Some (OInstance CMQTTClient attrs) →
  attrs !! "mqtt_client" = Some (VRef p) →
  heap w !! p = Some (OPaho h) →
  attrs !! "client_id" = Some (VStr cid) →
  MQTTClient.publish self message topic w
  = match payload_of message with
    | inl e => (inl e, w)
    | inr payload =>
        (outcome (paho_raises h (PPublish (topic_of cid topic) payload)),
         update w p (OPaho (called h [PPublish (topic_of cid topic) payload])))
    end.
Proof.
  intros Es Ef Ep Ec. unfold MQTTClient.publish, topic_of.
  assert (R : ∀ payload,
      (mc <- getattr self "mqtt_client" ;;
       t <- (if truthy_str topic then ret (default "" topic)
             else
               cid <- getattr_str self "client_id" ;;
               ret ("client/" ++ cid)) ;;
       paho_invoke mc (PPublish t payload)) w
      = (outcome (paho_raises h (PPublish (if truthy_str topic then default "" topic
                                           else "client/" ++ cid) payload)),
         update w p
           (OPaho (called h [PPublish (if truthy_str topic then default "" topic
                                       else "client/" ++ cid) payload])))).
  { intros payload.
    rewrite (bind_ok _ _ _ _ _ (getattr_ok _ _ _ _ _ _ Es Ef)).
    destruct (truthy_str topic).
    - rewrite bind_ret. by apply paho_invoke_ok.
    - rewrite bind_assoc.
      rewrite (bind_ok _ _ _ _ _ (getattr_str_ok _ _ _ _ _ _ Es Ec)).
      rewrite bind_ret. by apply paho_invoke_ok. }
  destruct message as [s|d]; cbn [payload_of].
  - rewrite bind_ret. apply R.
  - destruct (json_dumps d) as [e|payload].
    + reflexivity.
    + rewrite bind_ret. apply R.
Qed.

Lemma on_connect_run cls w self attrs id client user_data flags rc :
  heap w !! self = Some (OInstance cls attrs) →
  attrs !! id_field cls = Some (VStr id) →
  on_connect_of cls self client user_data flags rc w
  = (inr tt,
     if rc =? 0
     then mkWorld (<[self := OInstance cls (<["connected" := VBool true]> attrs)]> (heap w))
            (stdout w ++ [id ++ " connected"])
     else w).
Proof.
  intros Es Ei.
  assert (R : ∀ field, field ≠ "connected" → attrs !! field = Some (VStr id) →
      (if rc =? 0 then
         setattr self "connected" (VBool true) ;;
         cid <- getattr_str self field ;;
         print [cid; "connected"]
       else ret tt) w
      = (inr tt,
         if rc =? 0
         then mkWorld (<[self := OInstance cls (<["connected" := VBool true]> attrs)]> (heap w))
                (stdout w ++ [id ++ " connected"])
         else w)).
  { intros field Hf Ef. destruct (rc =? 0); [|reflexivity].
    rewrite (bind_ok _ _ _ _ _ (setattr_ok _ _ _ _ _ _ Es)).
    erewrite bind_ok; cycle 1.
    { eapply getattr_str_ok; [by eapply lookup_update_eq|].
      by rewrite lookup_insert_ne. }
    reflexivity. }
  destruct cls; by apply R.
Qed.

Lemma on_disconnect_run cls w self attrs client user_data rc :
  heap w !! self = Some (OInstance cls attrs) →
  on_disconnect_of cls self client user_data rc w
  = (inr tt, update w self (OInstance cls (<["connected" := VBool false]> attrs))).
Proof. intros Es. destruct cls; by apply setattr_ok. Qed.

Lemma setter_run w self attrs p h callback :
  heap w !! self = Some (OInstance CMQTTServer attrs) →
  attrs !! "mqtt_server" = Some (VRef p) →
  heap w !! p = Some (OPaho h) →
  MQTTServer.on_message_setter self callback w
  = (inr tt,
     update w p
       (OPaho (mkPaho (paho_client_id h) (<["on_message" := callback]> (paho_attrs h))
                 (paho_calls h)))).
Proof.
  intros Es Ef Ep. unfold MQTTServer.on_message_setter.
  rewrite (bind_ok _ _ _ _ _ (getattr_ok _ _ _ _ _ _ Es Ef)).
  by apply paho_setattr_ok.
Qed.

Lemma getter_run w self :
  MQTTServer.on_message self w
  = (inr (VRef (length (heap w))),
     mkWorld (heap w ++ [OFunction CodeDefaultOnMessage]) (stdout w)).
Proof. reflexivity. Qed.

(** What can be read off a world after an update. *)

Lemma attr_update_self w self cls attrs attrs' name :
  heap w !! self = Some (OInstance cls attrs) →
  attr (update w self (OInstance cls attrs')) self name = attrs' !! name.
Proof. intros Es. unfold attr. by rewrite (lookup_update_eq _ _ _ _ Es). Qed.

Lemma attr_update_other w l o self name :
  l ≠ self → attr (update w l o) self name = attr w self name.
Proof. intros Hne. unfold attr. by rewrite lookup_update_ne. Qed.

Lemma handle_update w p h h' :
  heap w !! p = Some (OPaho h) →
  handle (update w p (OPaho h')) (VRef p) = Some h'.
Proof. intros Ep. unfold handle. by rewrite (lookup_update_eq _ _ _ _ Ep). Qed.

Lemma calls_of_update w cls self attrs p h h' :
  heap w !! self = Some (OInstance cls attrs) →
  attrs !! handle_field cls = Some (VRef p) →
  heap w !! p = Some (OPaho h) →
  calls_of (update w p (OPaho h')) cls self = Some (paho_calls h').
Proof.
  intros Es Ef Ep. unfold calls_of, handle_of.
  assert (Hne : p ≠ self) by (intros ->; congruence).
  rewrite attr_update_other by done.
  unfold attr. rewrite Es, Ef. cbn -[handle].
  by rewrite (handle_update _ _ _ _ Ep).
Qed.

Lemma calls_of_ok w cls self attrs p h :
  heap w !! self = Some (OInstance cls attrs) →
  attrs !! handle_field cls = Some (VRef p) →
  heap w !! p = Some (OPaho h) →
  calls_of w cls self = Some (paho_calls h).
Proof.
  intros Es Ef Ep. unfold calls_of, handle_of, attr, handle.
  rewrite Es, Ef. cbn. by rewrite Ep.
Qed.

(** ** publish *)




(** C2: [MQTTServer.publish] is an empty stub.  For every message and every
    topic it returns [None] and leaves the world as it was: no call reaches
    the underlying client, and every attribute of the instance keeps its
    value. *)
Theorem server_publish_is_stub `{PyRuntime} self message topic w :
  ∃ w',
    MQTTServer.publish self message topic w = (inr tt, w')
    ∧ w' = w
    ∧ calls_of w' CMQTTServer self = calls_of w CMQTTServer self
    ∧ ∀ name, attr w' self name = attr w self name.
Proof. exists w. by repeat split. Qed.

(** ** The constructors *)

(** C3: each constructor creates one paho handle, which is new, keeps it in
    [mqtt_client] (or [mqtt_server]), and sets exactly three callbacks on it:
    [on_connect] and [on_disconnect] are the bound methods of the new
    instance, and [on_message] is the static method [MQTTClient.on_message]
    for a client and, for a server, what the [on_message] getter returns, a
    new [default_on_message] function.  Objects that existed stay as they
    were. *)
Theorem constructors_wire_callbacks `{PyRuntime} w :
  (∀ client_id sub_topics, ∃ self p h w',
      MQTTClient.__init__ client_id sub_topics w = (inr self, w')
      ∧ heap w `prefix_of` heap w'
      ∧ count_handles w' = S (count_handles w)
      ∧ heap w !! p = None
      ∧ attr w' self "mqtt_client" = Some (VRef p)
      ∧ handle w' (VRef p) = Some h
      ∧ paho_attrs h
        = <["on_connect" := VBound OnConnect self]>
            (<["on_message" := VRef CLIENT_ON_MESSAGE]>
               (<["on_disconnect" := VBound OnDisconnect self]> ∅))
      ∧ size (paho_attrs h) = 3%nat)
  ∧ (∀ server_id username password sub_topics, ∃ self p f h w',
      MQTTServer.__init__ server_id username password sub_topics w = (inr self, w')
      ∧ heap w `prefix_of` heap w'
      ∧ count_handles w' = S (count_handles w)
      ∧ heap w !! p = None
      ∧ attr w' self "mqtt_server" = Some (VRef p)
      ∧ handle w' (VRef p) = Some h
      ∧ heap w !! f = None
      ∧ code_of w' (VRef f) = Some CodeDefaultOnMessage
      ∧ paho_attrs h
        = <["on_connect" := VBound OnConnect self]>
            (<["on_message" := VRef f]>
               (<["on_disconnect" := VBound OnDisconnect self]> ∅))
      ∧ size (paho_attrs h) = 3%nat).
Proof.
  split.
  - intros client_id sub_topics.
    eexists _, (S (length (heap w))), _, _.
    split; [apply client_init_run|].
    cbn [heap]. split; [by eexists|].
    split.
    { unfold count_handles. cbn [heap]. rewrite List.filter_app, length_app.
      cbn. lia. }
    split; [apply lookup_ge_None_2; lia|].
    unfold attr, handle. cbn [heap].
    rewrite (lookup_app_r _ _ (length (heap w))) by lia.
    rewrite (lookup_app_r _ _ (S (length (heap w)))) by lia.
    replace (length (heap w) - length (heap w))%nat with 0%nat by lia.
    replace (S (length (heap w)) - length (heap w))%nat with 1%nat by lia.
    cbn [lookup list_lookup].
    split; [reflexivity|]. split; [reflexivity|].
    cbn [paho_attrs]. split; [|reflexivity].
    unfold client_callbacks.
    apply map_eq. intros k.
    rewrite !lookup_insert. repeat case_decide; by simplify_eq.
  - intros server_id username password sub_topics.
    eexists _, (S (length (heap w))), (length (heap w) + 2)%nat, _, _.
    split; [apply server_init_run|].
    cbn [heap]. split; [by eexists|].
    split.
    { unfold count_handles. cbn [heap]. rewrite List.filter_app, length_app.
      cbn. lia. }
    split; [apply lookup_ge_None_2; lia|].
    unfold attr, handle, code_of. cbn [heap].
    rewrite (lookup_app_r _ _ (length (heap w))) by lia.
    rewrite (lookup_app_r _ _ (S (length (heap w)))) by lia.
    rewrite (lookup_app_r _ _ (length (heap w) + 2)%nat) by lia.
    replace (length (heap w) - length (heap w))%nat with 0%nat by lia.
    replace (S (length (heap w)) - length (heap w))%nat with 1%nat by lia.
    replace (length (heap w) + 2 - length (heap w))%nat with 2%nat by lia.
    cbn [lookup list_lookup].
    split; [reflexivity|]. split; [reflexivity|].
    split; [apply lookup_ge_None_2; lia|]. split; [reflexivity|].
    cbn [paho_attrs]. split; [|reflexivity].
    unfold server_callbacks.
    apply map_eq. intros k.
    rewrite !lookup_insert. repeat case_decide; by simplify_eq.
Qed.

(** ** connect *)

(** C4, as stated, fails: [sub_topics] is truthy and yet no [subscribe]
    follows, because the underlying [connect], called with port 0, raises
    and the wrapper lets the exception through. *)
Lemma connect_raises_before_subscribe :
  ∃ w',
    connect_of (H := ascii_runtime) CMQTTServer demo_server "10.0.0.1" (Some 0) None demo
    = (inl ValueError, w')
    ∧ attr demo demo_server "sub_topics" = Some (VRef SUB_TOPICS_DEFAULT)
    ∧ truthy (VRef SUB_TOPICS_DEFAULT) demo = (inr true, demo)
    ∧ calls_of w' CMQTTServer demo_server = Some [PConnect "10.0.0.1" 0 60].
Proof. eexists. split; [vm_compute; reflexivity|]. by repeat split. Qed.

(** C4 (as amended): for an instance of either class, [connect(ip, port,
    keepalive)] calls the underlying client's [connect] with the given [ip],
    the given [port] or 1883, and the given [keepalive] or 60.  When that
    call raises, the exception propagates and [subscribe] is not called.
    When it returns, the underlying client's [subscribe] is called with
    [sub_topics] exactly when [sub_topics] is truthy, and what it raises
    propagates; [None] and the empty list are not truthy, a list with an
    element is. *)
Theorem connect_passthrough `{PyRuntime} cls w self attrs p h st b ip port keepalive :
  heap w !! self = Some (OInstance cls attrs) →
  attrs !! handle_field cls = Some (VRef p) →
  heap w !! p = Some (OPaho h) →
  attrs !! "sub_topics" = Some st →
  truthy st w = (inr b, w) →
  let c := PConnect ip (default 1883 port) (default 60 keepalive) in
  let s := PSubscribe st (list_items w st) in
  ∃ r w',
    connect_of cls self ip port keepalive w = (r, w')
    ∧ match paho_raises h c with
      | Some e => r = inl e ∧ calls_of w' cls self = Some (paho_calls h ++ [c])%list
      | None =>
          if b
          then r = match paho_raises (called h [c]) s with
                   | Some e => inl e
                   | None => inr tt
                   end
               ∧ calls_of w' cls self = Some (paho_calls h ++ [c; s])%list
          else r = inr tt ∧ calls_of w' cls self = Some (paho_calls h ++ [c])%list
      end
    ∧ match st with
      | VNone => b = false
      | _ =>
          match list_items w st with
          | Some [] => b = false
          | Some (_ :: _) => b = true
          | None => True
          end
      end.
Proof.
  intros Es Ef Ep Est Eb c s. eexists _, _.
  split; [by eapply connect_run|]. split.
  - rewrite (calls_of_update _ cls _ _ _ _ _ Es Ef Ep).
    fold c s. cbn [invoke_all]. destruct (paho_raises h c) as [e|]; [done|].
    destruct b; cbn [invoke_all]; [|done].
    destruct (paho_raises (called h [c]) s); cbn; by rewrite <- app_assoc.
  - destruct st as [| | | |l|]; try done.
    + unfold truthy, ret in Eb. by simplify_eq.
    + unfold truthy, bind, load, list_items in *.
      destruct (heap w !! l) as [[[|]| | | |]|]; unfold ret in Eb; by simplify_eq.
Qed.

Lemma connect_passthrough_witness :
  ∃ r w',
    connect_of (H := ascii_runtime) CMQTTServer demo_server "10.0.0.1" None (Some 30) demo
    = (r, w')
    ∧ (r = inr tt
       ∧ calls_of w' CMQTTServer demo_server
         = Some (paho_calls (mkPaho "server" (server_callbacks demo_server) [])
                 ++ [PConnect "10.0.0.1" 1883 30;
                     PSubscribe (VRef SUB_TOPICS_DEFAULT)
                       (list_items demo (VRef SUB_TOPICS_DEFAULT))])%list)
    ∧ match list_items demo (VRef SUB_TOPICS_DEFAULT) with
      | Some [] => true = false
      | Some (_ :: _) => true = true
      | None => True
      end.
Proof.
  exact (connect_passthrough (H := ascii_runtime) CMQTTServer demo demo_server
           (server_attrs (H := ascii_runtime) demo_server "server"
              (VRef SUB_TOPICS_DEFAULT))
           demo_server_handle (mkPaho "server" (server_callbacks demo_server) [])
           (VRef SUB_TOPICS_DEFAULT) true "10.0.0.1" None (Some 30)
           eq_refl eq_refl eq_refl eq_refl eq_refl).
Defined.

(** ** The on_message property of the server *)

(** C5: for every value [c], the assignment [server.on_message = c] goes
    through the property setter and makes [c] the [on_message] handler of the
    underlying client; the other callbacks and the calls made on the client
    stay as they were.  The class has no registration method of its own: the
    property is the interface. *)
Theorem on_message_setter_installs w self attrs p h c :
  heap w !! self = Some (OInstance CMQTTServer attrs) →
  attrs !! "mqtt_server" = Some (VRef p) →
  heap w !! p = Some (OPaho h) →
  ∃ w' h',
    MQTTServer.on_message_setter self c w = (inr tt, w')
    ∧ handle_of w' self "mqtt_server" = Some h'
    ∧ paho_attrs h' !! "on_message" = Some c
    ∧ (∀ name, name ≠ "on_message" → paho_attrs h' !! name = paho_attrs h !! name)
    ∧ paho_calls h' = paho_calls h
    ∧ "setOnMessage" ∉ class_names CMQTTServer.
Proof.
  intros Es Ef Ep.
  assert (Hne : p ≠ self) by (intros ->; congruence).
  eexists _, _. split; [by eapply setter_run|].
  split.
  { unfold handle_of. rewrite attr_update_other by done.
    unfold attr. rewrite Es, Ef. cbn -[handle].
    by rewrite (handle_update _ _ _ _ Ep). }
  cbn [paho_attrs paho_calls].
  split; [by rewrite lookup_insert_eq|].
  split; [by intros name Hn; rewrite lookup_insert_ne|].
  split; [done|].
  intros Hin. cbn in Hin.
  repeat (apply elem_of_cons in Hin as [Hin|Hin]; [discriminate|]).
  by apply elem_of_nil in Hin.
Qed.

Lemma on_message_setter_installs_witness :
  ∃ w' h',
    MQTTServer.on_message_setter demo_server (VBound OnConnect demo_client) demo
    = (inr tt, w')
    ∧ handle_of w' demo_server "mqtt_server" = Some h'
    ∧ paho_attrs h' !! "on_message" = Some (VBound OnConnect demo_client)
    ∧ (∀ name, name ≠ "on_message" →
         paho_attrs h' !! name
         = paho_attrs (mkPaho "server" (server_callbacks demo_server) []) !! name)
    ∧ paho_calls h' = paho_calls (mkPaho "server" (server_callbacks demo_server) [])
    ∧ "setOnMessage" ∉ class_names CMQTTServer.
Proof.
  exact (on_message_setter_installs demo demo_server
           (server_attrs (H := ascii_runtime) demo_server "server"
              (VRef SUB_TOPICS_DEFAULT))
           demo_server_handle (mkPaho "server" (server_callbacks demo_server) [])
           (VBound OnConnect demo_client)
           eq_refl eq_refl eq_refl).
Defined.

(** ** What the constructors leave behind *)

Lemma lookup_new (h l : list Obj) k : (h ++ l)%list !! (length h + k)%nat = l !! k.
Proof.
  rewrite lookup_app_r by lia. f_equal. lia.
Qed.

Lemma lookup_new_0 (h l : list Obj) : (h ++ l)%list !! length h = l !! 0%nat.
Proof. rewrite <- (lookup_new h l 0). f_equal. lia. Qed.

Lemma lookup_new_1 (h l : list Obj) : (h ++ l)%list !! S (length h) = l !! 1%nat.
Proof. rewrite <- (lookup_new h l 1). f_equal. lia. Qed.

Lemma client_init_obs `{PyRuntime} client_id sub_topics w :
  let n := length (heap w) in
  let w' := (MQTTClient.__init__ client_id sub_topics w).2 in
  (∀ name, attr w' n name
           = client_attrs n client_id (default VNone sub_topics) !! name)
  ∧ calls_of w' CMQTTClient n = Some [].
Proof.
  cbv zeta. rewrite client_init_run. cbn [snd].
  split.
  - intros name. unfold attr. cbn [heap]. by rewrite lookup_new_0.
  - unfold calls_of, handle_of, attr. cbn [heap].
    rewrite lookup_new_0. cbn [lookup list_lookup handle_field].
    change (client_attrs _ _ _ !! "mqtt_client")
      with (Some (VRef (S (length (heap w))))).
    cbn [mbind option_bind]. unfold handle. cbn [heap].
    by rewrite lookup_new_1.
Qed.

Lemma server_init_obs `{PyRuntime} server_id username password sub_topics w :
  let n := length (heap w) in
  let w' := (MQTTServer.__init__ server_id username password sub_topics w).2 in
  (∀ name, attr w' n name
           = server_attrs n (default "server" server_id)
               (default (VRef SUB_TOPICS_DEFAULT) sub_topics) !! name)
  ∧ calls_of w' CMQTTServer n = Some (credentials username password).
Proof.
  cbv zeta. rewrite server_init_run. cbn [snd].
  split.
  - intros name. unfold attr. cbn [heap]. by rewrite lookup_new_0.
  - unfold calls_of, handle_of, attr. cbn [heap].
    rewrite lookup_new_0. cbn [lookup list_lookup handle_field].
    change (server_attrs _ _ _ !! "mqtt_server")
      with (Some (VRef (S (length (heap w))))).
    cbn [mbind option_bind]. unfold handle. cbn [heap].
    by rewrite lookup_new_1.
Qed.

(** ** Credentials *)

(** C6: the constructor of MQTTServer takes an optional [username] and
    [password], and calls [username_pw_set] on the underlying client, with
    the two values as given, exactly when at least one of them is truthy;
    with both [None], or both the empty string, it sets no credentials. *)
Theorem server_credentials `{PyRuntime} server_id username password sub_topics w :
  calls_after_init server_id username password sub_topics w
  = Some (if truthy_str username || truthy_str password
          then [PUsernamePwSet username password]
          else [])
  ∧ calls_after_init server_id None None sub_topics w = Some []
  ∧ calls_after_init server_id (Some "") (Some "") sub_topics w = Some [].
Proof.
  assert (R : ∀ u p, calls_after_init server_id u p sub_topics w
                     = Some (credentials u p)).
  { intros u p. unfold calls_after_init.
    pose proof (server_init_obs server_id u p sub_topics w) as [_ Hc].
    cbn zeta in Hc. rewrite server_init_run in *. exact Hc. }
  by rewrite !R.
Qed.

(** ** The default of sub_topics *)

(** C7: the default of the [sub_topics] parameter of the constructor of
    MQTTServer is one list object, made when the module is imported with the
    value [[('client/+', 0)]].  Every server constructed without a
    [sub_topics] argument stores a reference to that object, not a copy: two
    such servers hold the same reference, and a change in place made through
    one of them is what the other one reads. *)
Theorem default_sub_topics_shared `{PyRuntime} w items f id1 u1 p1 id2 u2 p2 :
  heap w !! SUB_TOPICS_DEFAULT = Some (OList items) →
  list_items module_world (VRef SUB_TOPICS_DEFAULT) = Some [("client/+", 0)]
  ∧ ∃ s1 s2 w',
      two_servers id1 u1 p1 id2 u2 p2 f w = (inr (s1, s2), w')
      ∧ s1 ≠ s2
      ∧ attr w' s1 "sub_topics" = Some (VRef SUB_TOPICS_DEFAULT)
      ∧ attr w' s2 "sub_topics" = Some (VRef SUB_TOPICS_DEFAULT)
      ∧ sub_topics_of w' s1 = Some (f items)
      ∧ sub_topics_of w' s2 = Some (f items).
Proof.
  intros E0. split; [reflexivity|].
  pose proof (lookup_lt_Some _ _ _ E0) as Hlt.
  set (n := length (heap w)) in *.
  set (a1 := server_attrs n (default "server" id1) (VRef SUB_TOPICS_DEFAULT)).
  set (a2 := server_attrs (n + 4) (default "server" id2) (VRef SUB_TOPICS_DEFAULT)).
  set (l1 := [OInstance CMQTTServer a1;
              OPaho (mkPaho (str_strip (default "server" id1)) (server_callbacks n)
                       (credentials u1 p1));
              OFunction CodeDefaultOnMessage; ODict ∅]).
  set (l2 := [OInstance CMQTTServer a2;
              OPaho (mkPaho (str_strip (default "server" id2))
                       (server_callbacks (n + 4)) (credentials u2 p2));
              OFunction CodeDefaultOnMessage; ODict ∅]).
  set (w2 := mkWorld ((heap w ++ l1) ++ l2) (stdout w)).
  assert (Hl : length (heap w ++ l1) = (n + 4)%nat) by (by rewrite length_app).
  assert (E1 : heap w2 !! n = Some (OInstance CMQTTServer a1)).
  { unfold w2. cbn [heap]. rewrite lookup_app_l by lia.
    unfold n. by rewrite lookup_new_0. }
  assert (E2 : heap w2 !! (n + 4)%nat = Some (OInstance CMQTTServer a2)).
  { unfold w2. cbn [heap]. rewrite <- Hl. by rewrite lookup_new_0. }
  assert (E3 : heap w2 !! SUB_TOPICS_DEFAULT = Some (OList items)).
  { unfold w2. cbn [heap]. rewrite !lookup_app_l; [done|done|lia]. }
  assert (R : two_servers id1 u1 p1 id2 u2 p2 f w
              = (inr (n, (n + 4)%nat),
                 update w2 SUB_TOPICS_DEFAULT (OList (f items)))).
  { unfold two_servers.
    etrans; [eapply bind_ok; apply server_init_run|].
    etrans; [eapply bind_ok; apply server_init_run|].
    cbn [heap stdout default]. fold n a1 l1. rewrite Hl. fold a2 l2 w2.
    etrans; [eapply bind_ok; by eapply getattr_ok|].
    etrans; [eapply bind_ok; by eapply list_mutate_ok|].
    reflexivity. }
  eexists _, _, _. split; [exact R|].
  assert (Hn : SUB_TOPICS_DEFAULT ≠ n) by lia.
  assert (Hn4 : SUB_TOPICS_DEFAULT ≠ (n + 4)%nat) by (unfold SUB_TOPICS_DEFAULT; lia).
  split; [lia|].
  unfold sub_topics_of. rewrite !attr_update_other by done.
  unfold attr. rewrite E1, E2.
  change (a1 !! "sub_topics") with (Some (VRef SUB_TOPICS_DEFAULT)).
  change (a2 !! "sub_topics") with (Some (VRef SUB_TOPICS_DEFAULT)).
  cbn [mbind option_bind]. unfold list_items.
  rewrite (lookup_update_eq _ _ _ _ E3). done.
Qed.

Lemma default_sub_topics_shared_witness :
  list_items module_world (VRef SUB_TOPICS_DEFAULT) = Some [("client/+", 0)]
  ∧ ∃ s1 s2 w',
      two_servers (H := ascii_runtime) (Some "a") None None (Some "b") None None
        (λ items, (items ++ [("extra/#", 1)])%list) module_world
      = (inr (s1, s2), w')
      ∧ s1 ≠ s2
      ∧ attr w' s1 "sub_topics" = Some (VRef SUB_TOPICS_DEFAULT)
      ∧ attr w' s2 "sub_topics" = Some (VRef SUB_TOPICS_DEFAULT)
      ∧ sub_topics_of w' s1 = Some ([("client/+", 0)] ++ [("extra/#", 1)])%list
      ∧ sub_topics_of w' s2 = Some ([("client/+", 0)] ++ [("extra/#", 1)])%list.
Proof.
  exact (default_sub_topics_shared (H := ascii_runtime) module_world
           [("client/+", 0)] (λ items, (items ++ [("extra/#", 1)])%list)
           (Some "a") None None (Some "b") None None eq_refl).
Defined.

(** ** Reading the on_message property *)

(** Assignments to the property reach the handle and nothing else: the heap
    keeps its size, every other object stays, and the handle holds the last
    value assigned. *)
Lemma assign_all_run self attrs p cs : ∀ w h,
  heap w !! self = Some (OInstance CMQTTServer attrs) →
  attrs !! "mqtt_server" = Some (VRef p) →
  heap w !! p = Some (OPaho h) →
  ∃ w' h',
    assign_all self cs w = (inr tt, w')
    ∧ length (heap w') = length (heap w)
    ∧ (∀ l, l ≠ p → heap w' !! l = heap w !! l)
    ∧ heap w' !! p = Some (OPaho h')
    ∧ paho_attrs h' !! "on_message"
      = match last cs with
        | Some c => Some c
        | None => paho_attrs h !! "on_message"
        end.
Proof.
  induction cs as [|c cs IH]; intros w h Es Ef Ep.
  - exists w, h. by repeat split.
  - assert (Hne : p ≠ self) by (intros ->; congruence).
    set (h1 := mkPaho (paho_client_id h) (<["on_message" := c]> (paho_attrs h))
                 (paho_calls h)).
    destruct (IH (update w p (OPaho h1)) h1) as (w' & h' & Hrun & Hlen & Hfr & Hp & Hm).
    { by rewrite lookup_update_ne. }
    { done. }
    { by eapply lookup_update_eq. }
    exists w', h'. split.
    { cbn [assign_all]. etrans; [eapply bind_ok; by eapply setter_run|]. exact Hrun. }
    split; [by rewrite Hlen; cbn; rewrite length_insert|].
    split; [by intros l Hl; rewrite Hfr, lookup_update_ne|].
    split; [done|].
    rewrite Hm. destruct cs as [|c' cs'].
    + cbn. by rewrite lookup_insert_eq.
    + change (last (c :: c' :: cs')) with (last (c' :: cs')).
      by destruct (last (c' :: cs')) eqn:E; [|apply last_None in E].
Qed.

(** C9: a read of [server.on_message] always returns a function object that
    did not exist before the read, with the code of [default_on_message],
    which decodes the payload and prints the topic and the message.  What a
    read returns does not depend on what was assigned before: after any
    assignments [server.on_message = c], with values [c] of the world, the
    handle holds the last of them, and a read returns the same new default
    handler as it would have without the assignments, which is none of the
    values assigned. *)
Theorem on_message_getter_fresh `{PyRuntime} w self :
  (∃ f,
      MQTTServer.on_message self w
      = (inr (VRef f), mkWorld (heap w ++ [OFunction CodeDefaultOnMessage]) (stdout w))
      ∧ heap w !! f = None
      ∧ code_body CodeDefaultOnMessage = Some MQTTServer.default_on_message)
  ∧ (∀ client user_data msg w0,
      MQTTServer.default_on_message client user_data msg w0
      = match bytes_decode (payload msg) with
        | Some message =>
            (inr tt, mkWorld (heap w0) (stdout w0 ++ [topic msg ++ " " ++ message]))
        | None => (inl UnicodeDecodeError, w0)
        end)
  ∧ (∀ attrs p h c cs,
      heap w !! self = Some (OInstance CMQTTServer attrs) →
      attrs !! "mqtt_server" = Some (VRef p) →
      heap w !! p = Some (OPaho h) →
      Forall (live w) (cs ++ [c]) →
      ∃ f w' h',
        (assign_all self (cs ++ [c]) ;; MQTTServer.on_message self) w
        = (inr (VRef f), w')
        ∧ (VRef f ∉ (cs ++ [c])%list)
        ∧ heap w !! f = None
        ∧ code_of w' (VRef f) = Some CodeDefaultOnMessage
        ∧ (MQTTServer.on_message self w).1 = inr (VRef f)
        ∧ handle_of w' self "mqtt_server" = Some h'
        ∧ paho_attrs h' !! "on_message" = Some c).
Proof.
  split; [|split].
  - exists (length (heap w)). split; [reflexivity|].
    split; [|reflexivity]. by apply lookup_ge_None_2.
  - intros client user_data msg w0. unfold MQTTServer.default_on_message.
    by destruct (bytes_decode (payload msg)).
  - intros attrs p h c cs Es Ef Ep Hlive.
    assert (Hne : p ≠ self) by (intros ->; congruence).
    pose proof (lookup_lt_Some _ _ _ Ep) as Hp.
    pose proof (lookup_lt_Some _ _ _ Es) as Hs.
    destruct (assign_all_run self attrs p (cs ++ [c]) w h Es Ef Ep)
      as (w1 & h1 & Hrun & Hlen & Hfr & Hp1 & Hm).
    rewrite last_snoc in Hm.
    exists (length (heap w)), (mkWorld (heap w1 ++ [OFunction CodeDefaultOnMessage])
                                 (stdout w1)), h1.
    split.
    { etrans; [eapply bind_ok; exact Hrun|]. rewrite getter_run. by rewrite Hlen. }
    split.
    { intros Hin. rewrite Forall_forall in Hlive.
      specialize (Hlive _ Hin). cbn in Hlive. lia. }
    split; [by apply lookup_ge_None_2|].
    split.
    { unfold code_of. cbn [heap]. rewrite <- Hlen. by rewrite lookup_new_0. }
    split; [reflexivity|].
    split; [|done].
    unfold handle_of, attr, handle. cbn [heap].
    rewrite lookup_app_l by lia. rewrite (Hfr self) by done. rewrite Es, Ef.
    cbn [mbind option_bind]. rewrite lookup_app_l by lia. by rewrite Hp1.
Qed.

Lemma on_message_getter_fresh_witness :
  ∃ f w' h',
    (assign_all demo_server ([VBound OnConnect demo_client] ++ [VRef CLIENT_ON_MESSAGE]) ;;
     MQTTServer.on_message demo_server) demo
    = (inr (VRef f), w')
    ∧ (VRef f ∉ ([VBound OnConnect demo_client] ++ [VRef CLIENT_ON_MESSAGE])%list)
    ∧ heap demo !! f = None
    ∧ code_of w' (VRef f) = Some CodeDefaultOnMessage
    ∧ (MQTTServer.on_message demo_server demo).1 = inr (VRef f)
    ∧ handle_of w' demo_server "mqtt_server" = Some h'
    ∧ paho_attrs h' !! "on_message" = Some (VRef CLIENT_ON_MESSAGE).
Proof.
  refine (proj2 (proj2 (on_message_getter_fresh (H := ascii_runtime) demo demo_server))
            (server_attrs (H := ascii_runtime) demo_server "server"
               (VRef SUB_TOPICS_DEFAULT))
            demo_server_handle (mkPaho "server" (server_callbacks demo_server) [])
            (VRef CLIENT_ON_MESSAGE) [VBound OnConnect demo_client]
            eq_refl eq_refl eq_refl _).
  cbn [app].
  constructor; [vm_compute; lia|].
  constructor; [vm_compute; lia|].
  constructor.
Defined.

(** ** The connected flag *)

(** C10: for both classes, [connected] is [False] when the constructor
    returns; [on_connect] sets it to [True] when [rc] is 0 and changes
    nothing when [rc] is not 0; [on_disconnect] sets it to [False] whatever
    [rc] is. *)
Theorem connected_flag `{PyRuntime} cls w :
  (∀ client_id sub_topics, ∃ self w',
      MQTTClient.__init__ client_id sub_topics w = (inr self, w')
      ∧ attr w' self "connected" = Some (VBool false))
  ∧ (∀ server_id username password sub_topics, ∃ self w',
      MQTTServer.__init__ server_id username password sub_topics w = (inr self, w')
      ∧ attr w' self "connected" = Some (VBool false))
  ∧ (∀ self attrs id client user_data flags rc,
      heap w !! self = Some (OInstance cls attrs) →
      attrs !! id_field cls = Some (VStr id) →
      ∃ w',
        on_connect_of cls self client user_data flags rc w = (inr tt, w')
        ∧ attr w' self "connected"
          = (if rc =? 0 then Some (VBool true) else attr w self "connected")
        ∧ (if rc =? 0 then True else w' = w))
  ∧ (∀ self attrs client user_data rc,
      heap w !! self = Some (OInstance cls attrs) →
      ∃ w',
        on_disconnect_of cls self client user_data rc w = (inr tt, w')
        ∧ attr w' self "connected" = Some (VBool false)).
Proof.
  split; [|split; [|split]].
  - intros client_id sub_topics.
    pose proof (client_init_obs client_id sub_topics w) as [Ha _].
    cbv zeta in Ha. rewrite client_init_run in Ha. cbn [snd] in Ha.
    eexists _, _. split; [apply client_init_run|]. by rewrite Ha.
  - intros server_id username password sub_topics.
    pose proof (server_init_obs server_id username password sub_topics w) as [Ha _].
    cbv zeta in Ha. rewrite server_init_run in Ha. cbn [snd] in Ha.
    eexists _, _. split; [apply server_init_run|]. by rewrite Ha.
  - intros self attrs id client user_data flags rc Es Ei.
    eexists. split; [by eapply on_connect_run|].
    destruct (rc =? 0); [|done]. split; [|done].
    unfold attr. cbn [heap].
    rewrite list_lookup_insert_eq by (by eapply lookup_lt_Some).
    by rewrite lookup_insert_eq.
  - intros self attrs client user_data rc Es.
    eexists. split; [by eapply on_disconnect_run|].
    rewrite (attr_update_self _ _ _ _ _ _ Es). by rewrite lookup_insert_eq.
Qed.

Lemma connected_flag_witness :
  (∃ w',
      on_connect_of CMQTTClient demo_client (VRef demo_client_handle) None VNone 0 demo
      = (inr tt, w')
      ∧ attr w' demo_client "connected"
        = (if 0 =? 0 then Some (VBool true) else attr demo demo_client "connected")
      ∧ (if 0 =? 0 then True else w' = demo))
  ∧ (∃ w',
      on_connect_of CMQTTClient demo_client (VRef demo_client_handle) None VNone 5 demo
      = (inr tt, w')
      ∧ attr w' demo_client "connected"
        = (if 5 =? 0 then Some (VBool true) else attr demo demo_client "connected")
      ∧ (if 5 =? 0 then True else w' = demo))
  ∧ (∃ w',
      on_disconnect_of CMQTTClient demo_client (VRef demo_client_handle) None 7 demo
      = (inr tt, w')
      ∧ attr w' demo_client "connected" = Some (VBool false)).
Proof.
  pose proof (connected_flag (H := ascii_runtime) CMQTTClient demo) as (_ & _ & Hc & Hd).
  pose (a := client_attrs (H := ascii_runtime) demo_client " c1 " VNone).
  split; [|split].
  - exact (Hc demo_client a "c1" (VRef demo_client_handle) None VNone 0
             eq_refl eq_refl).
  - exact (Hc demo_client a "c1" (VRef demo_client_handle) None VNone 5
             eq_refl eq_refl).
  - exact (Hd demo_client a (VRef demo_client_handle) None 7 eq_refl).
Defined.

(** ** Sessions, run *)

Lemma called_nil h : called h [] = h.
Proof. destruct h. unfold called. cbn. by rewrite app_nil_r. Qed.

Lemma called_called h a b : called (called h a) b = called h (a ++ b).
Proof. unfold called. cbn. by rewrite app_assoc. Qed.

Lemma attrs_step_other {D} (attrs : gmap string Value) (op : Op D) name :
  name ≠ "connected" → attrs_step attrs op !! name = attrs !! name.
Proof.
  intros Hn. destruct op as [| ? ? ? rc | |]; cbn; try done.
  - destruct (rc =? 0); [|done]. by rewrite lookup_insert_ne.
  - by rewrite lookup_insert_ne.
Qed.

Lemma attrs_step_flag {D} (attrs : gmap string Value) (op : Op D) :
  attrs_step attrs op !! "connected" = flag_step (attrs !! "connected") op.
Proof.
  destruct op as [| ? ? ? rc | |]; cbn; try done.
  - destruct (rc =? 0); [|done]. by rewrite lookup_insert_eq.
  - by rewrite lookup_insert_eq.
Qed.

Lemma attrs_after_other {D} (ops : list (Op D)) : ∀ (attrs : gmap string Value) name,
  name ≠ "connected" → foldl attrs_step attrs ops !! name = attrs !! name.
Proof.
  induction ops as [|op ops IH]; intros attrs name Hn; [done|].
  cbn. rewrite IH by done. by apply attrs_step_other.
Qed.

Lemma attrs_after_flag {D} (ops : list (Op D)) : ∀ (attrs : gmap string Value),
  foldl attrs_step attrs ops !! "connected" = foldl flag_step (attrs !! "connected") ops.
Proof.
  induction ops as [|op ops IH]; intros attrs; [done|].
  cbn. rewrite IH. by rewrite attrs_step_flag.
Qed.

Lemma field_not_flag cls : handle_field cls ≠ "connected" ∧ id_field cls ≠ "connected".
Proof. by destruct cls. Qed.

Lemma update_id w l o : heap w !! l = Some o → update w l o = w.
Proof. intros E. unfold update. rewrite (list_insert_id _ _ _ E). by destruct w. Qed.

Lemma invoke_all_spec `{PyRuntime} cs : ∀ h,
  ∃ cs', (invoke_all h cs).2 = called h cs'
         ∧ cs' `prefix_of` cs
         ∧ ((invoke_all h cs).1 = inr tt → cs' = cs).
Proof.
  induction cs as [|c cs IH]; intros h.
  - exists []. by rewrite called_nil.
  - cbn [invoke_all]. destruct (paho_raises h c) as [e|].
    + exists [c]. split; [done|]. split; [by exists cs|done].
    + destruct (IH (called h [c])) as (cs' & E & Hp & Hr).
      exists (c :: cs'). rewrite E, called_called. split; [done|].
      split; [by apply prefix_cons|]. intros Hn. by rewrite (Hr Hn).
Qed.

Lemma publish_of_run `{PyRuntime} cls w self attrs p h id message topic w0 st0 :
  heap w !! self = Some (OInstance cls attrs) →
  attrs !! handle_field cls = Some (VRef p) →
  heap w !! p = Some (OPaho h) →
  attrs !! id_field cls = Some (VStr id) →
  ∃ r cs,
    publish_of cls self message topic w = (r, update w p (OPaho (called h cs)))
    ∧ cs `prefix_of` op_calls cls id w0 st0 (OpPublish message topic)
    ∧ (r = inr tt → cs = op_calls cls id w0 st0 (OpPublish message topic)).
Proof.
  intros Es Ef Ep Ei. destruct cls; cbn [publish_of op_calls].
  - rewrite (client_publish_run _ self attrs p h id message topic Es Ef Ep Ei).
    unfold publication. destruct (payload_of message) as [e|payload].
    + exists (inl e), []. by rewrite called_nil, (update_id _ _ _ Ep).
    + eexists _, [_]. split; [done|]. by split.
  - exists (inr tt), []. by rewrite called_nil, (update_id _ _ _ Ep).
Qed.

Section placing.
Variables (w : World) (cls : Class) (self p : loc).
Variables (attrs0 : gmap string Value) (h0 : PahoClient).
Hypothesis Es : heap w !! self = Some (OInstance cls attrs0).
Hypothesis Ep : heap w !! p = Some (OPaho h0).

Lemma place_ne : p ≠ self.
Proof. intros ->. congruence. Qed.

Lemma place_lookup_self attrs h out :
  heap (place w self cls attrs p h out) !! self = Some (OInstance cls attrs).
Proof.
  cbn. rewrite list_lookup_insert_ne by apply place_ne.
  apply list_lookup_insert_eq. by eapply lookup_lt_Some.
Qed.

Lemma place_lookup_handle attrs h out :
  heap (place w self cls attrs p h out) !! p = Some (OPaho h).
Proof.
  cbn. apply list_lookup_insert_eq. rewrite length_insert. by eapply lookup_lt_Some.
Qed.

Lemma place_lookup_other attrs h out l :
  l ≠ self → l ≠ p → heap (place w self cls attrs p h out) !! l = heap w !! l.
Proof. intros H1 H2. cbn. by rewrite !list_lookup_insert_ne. Qed.

Lemma place_length attrs h out :
  length (heap (place w self cls attrs p h out)) = length (heap w).
Proof. cbn. by rewrite !length_insert. Qed.

Lemma update_place_self attrs attrs' h out :
  update (place w self cls attrs p h out) self (OInstance cls attrs')
  = place w self cls attrs' p h out.
Proof.
  unfold update, place. cbn. f_equal.
  rewrite list_insert_insert_ne by (intros E; by apply place_ne).
  by rewrite list_insert_insert_eq.
Qed.

Lemma update_place_handle attrs h h' out :
  update (place w self cls attrs p h out) p (OPaho h')
  = place w self cls attrs p h' out.
Proof. unfold update, place. cbn. by rewrite list_insert_insert_eq. Qed.

Lemma place_id : place w self cls attrs0 p h0 (stdout w) = w.
Proof.
  unfold place. rewrite (list_insert_id _ _ _ Es), (list_insert_id _ _ _ Ep).
  by destruct w.
Qed.

Lemma list_items_place attrs h out st :
  sub_ok w st → list_items (place w self cls attrs p h out) st = list_items w st.
Proof.
  intros [->|(l & items & -> & El)]; [done|].
  unfold list_items. rewrite place_lookup_other; [done| |]; intros ->; congruence.
Qed.

Lemma truthy_place attrs h out st :
  sub_ok w st →
  ∃ b, truthy st (place w self cls attrs p h out)
       = (inr b, place w self cls attrs p h out)
       ∧ (if b then [PSubscribe st (list_items w st)] else []) = subscription w st.
Proof.
  intros [->|(l & items & -> & El)].
  - by exists false.
  - assert (Hl : heap (place w self cls attrs p h out) !! l = Some (OList items)).
    { rewrite place_lookup_other; [done| |]; intros ->; congruence. }
    exists (match items with [] => false | _ => true end). split.
    + unfold truthy, bind, load. by rewrite Hl.
    + unfold subscription, list_items. rewrite El. by destruct items.
Qed.

Lemma run_op_place `{PyRuntime} id st attrs h out (op : Op PyDict) :
  sub_ok w st →
  attrs !! id_field cls = Some (VStr id) →
  attrs !! handle_field cls = Some (VRef p) →
  attrs !! "sub_topics" = Some st →
  ∃ r cs,
    run_op cls self op (place w self cls attrs p h out)
    = (r, place w self cls (attrs_step attrs op) p (called h cs) (out ++ op_lines id op))
    ∧ cs `prefix_of` op_calls cls id w st op
    ∧ (r = inr tt → cs = op_calls cls id w st op)
    ∧ (∀ e, r = inl e → library_step op = true).
Proof.
  intros Hst Ei Ef Est.
  pose proof (place_lookup_self attrs h out) as Es'.
  pose proof (place_lookup_handle attrs h out) as Ep'.
  destruct op as [ip port keepalive | client user_data flags rc
                 | client user_data rc | message topic]; cbn [run_op].
  - destruct (truthy_place attrs h out st Hst) as (b & Hb & Hsub).
    rewrite (connect_run cls _ self attrs p h st b ip port keepalive Es' Ef Ep' Est Hb).
    rewrite (list_items_place _ _ _ _ Hst), Hsub.
    destruct (invoke_all_spec
                (PConnect ip (default 1883 port) (default 60 keepalive)
                 :: subscription w st) h) as (cs & E & Hp & Hr).
    eexists _, cs. rewrite E, update_place_handle. cbn. rewrite app_nil_r.
    by repeat split.
  - rewrite (on_connect_run cls _ self attrs id client user_data flags rc Es' Ei).
    exists (inr tt), []. rewrite called_nil. cbn. split; [|by repeat split].
    destruct (rc =? 0); [|by rewrite app_nil_r].
    f_equal.
    pose proof (update_place_self attrs (<["connected" := VBool true]> attrs) h out) as U.
    unfold update, place in *. cbn in *. by inversion U.
  - rewrite (on_disconnect_run cls _ self attrs client user_data rc Es').
    exists (inr tt), []. rewrite update_place_self, called_nil. cbn.
    rewrite app_nil_r. by repeat split.
  - destruct (publish_of_run cls _ self attrs p h id message topic w st Es' Ef Ep' Ei)
      as (r & cs & E & Hp & Hr).
    exists r, cs. rewrite E, update_place_handle. cbn [op_lines attrs_step].
    rewrite app_nil_r. by repeat split.
Qed.

Lemma run_ops_place `{PyRuntime} id st (ops : list (Op PyDict)) : ∀ attrs h out,
  sub_ok w st →
  attrs !! id_field cls = Some (VStr id) →
  attrs !! handle_field cls = Some (VRef p) →
  attrs !! "sub_topics" = Some st →
  ∃ r k cs,
    run_ops cls self ops (place w self cls attrs p h out)
    = (r,
       place w self cls (foldl attrs_step attrs (take k ops)) p (called h cs)
         (out ++ flat_map (op_lines id) (take k ops)))
    ∧ (k ≤ length ops)%nat
    ∧ cs `prefix_of` flat_map (op_calls cls id w st) ops
    ∧ (r = inr tt → k = length ops ∧ cs = flat_map (op_calls cls id w st) ops)
    ∧ (∀ e, r = inl e →
         ∃ j op, k = S j ∧ ops !! j = Some op ∧ library_step op = true).
Proof.
  destruct (field_not_flag cls) as [Hf Hi].
  induction ops as [|op ops IH]; intros attrs h out Hst Ei Ef Est.
  - exists (inr tt), 0%nat, []. cbn. rewrite called_nil, app_nil_r.
    by repeat split.
  - destruct (run_op_place id st attrs h out op Hst Ei Ef Est)
      as (r1 & cs1 & E1 & Hp1 & Hr1 & Hl1).
    destruct r1 as [e|[]].
    + exists (inl e), 1%nat, cs1. cbn [run_ops take foldl flat_map length].
      rewrite (bind_raise _ _ _ _ _ E1), take_0. cbn [foldl flat_map].
      rewrite app_nil_r. split; [done|]. split; [lia|].
      split; [by apply prefix_app_r|]. split; [done|].
      intros e' _. exists 0%nat, op.
      split; [done|]. split; [done|]. exact (Hl1 e eq_refl).
    + destruct (IH (attrs_step attrs op) (called h cs1) (out ++ op_lines id op)%list)
        as (r & k & cs & E & Hk & Hp & Hr & Hl);
        [done|by rewrite attrs_step_other..|].
      exists r, (S k), (cs1 ++ cs)%list. cbn [run_ops take foldl flat_map length].
      rewrite (bind_ok _ _ _ _ _ E1), E, called_called, <- app_assoc.
      split; [done|]. split; [lia|].
      rewrite (Hr1 eq_refl).
      split; [by apply prefix_app|].
      split.
      * intros Hn. destruct (Hr Hn) as [-> ->]. by rewrite <- (Hr1 eq_refl).
      * intros e' He. destruct (Hl e' He) as (j & op' & -> & Ho & Hlib).
        by exists (S j), op'.
Qed.
End placing.

(** A session on a wrapper that is there: the steps that were run, the
    calls that were made, and the result. *)
Lemma session_run `{PyRuntime} w cls self attrs id p h st (ops : list (Op PyDict)) :
  wrapper w cls self attrs id p h st →
  ∃ r k cs,
    run_ops cls self ops w
    = (r,
       place w self cls (foldl attrs_step attrs (take k ops)) p (called h cs)
         (stdout w ++ flat_map (op_lines id) (take k ops)))
    ∧ (k ≤ length ops)%nat
    ∧ cs `prefix_of` flat_map (op_calls cls id w st) ops
    ∧ (r = inr tt → k = length ops ∧ cs = flat_map (op_calls cls id w st) ops)
    ∧ (∀ e, r = inl e →
         ∃ j op, k = S j ∧ ops !! j = Some op ∧ library_step op = true).
Proof.
  intros [Es Ei Ef Ep Est Hst].
  destruct (run_ops_place w cls self p attrs h Es Ep id st ops attrs h (stdout w)
              Hst Ei Ef Est) as (r & k & cs & E & Hrest).
  rewrite (place_id w cls self p attrs h Es Ep) in E.
  by exists r, k, cs.
Qed.

Lemma demo_client_wrapper :
  wrapper demo CMQTTClient demo_client
    (client_attrs (H := ascii_runtime) demo_client " c1 " VNone) "c1"
    demo_client_handle (mkPaho "c1" (client_callbacks demo_client) []) VNone.
Proof. split; try reflexivity. by left. Qed.

Lemma demo_server_wrapper :
  wrapper demo CMQTTServer demo_server
    (server_attrs (H := ascii_runtime) demo_server "server" (VRef SUB_TOPICS_DEFAULT))
    "server" demo_server_handle (mkPaho "server" (server_callbacks demo_server) [])
    (VRef SUB_TOPICS_DEFAULT).
Proof. split; try reflexivity. right. by eexists _, _. Qed.

(** X1: over any sequence of [connect], [publish], [on_connect] and
    [on_disconnect] on a wrapper of either class, the run goes on until a
    step raises, and only a [connect] or a [publish] can raise: the
    callbacks never do.  Whether it ends or is cut short after [k] steps,
    [connected] is what the callbacks among those steps decide: [on_connect]
    with [rc = 0] makes it [True], [on_disconnect] makes it [False], and
    [connect], [publish] and [on_connect] with another [rc] leave it as it
    is. *)
Theorem session_connected `{PyRuntime} w cls self attrs id p h st (ops : list (Op PyDict)) :
  wrapper w cls self attrs id p h st →
  ∃ r k w',
    run_ops cls self ops w = (r, w')
    ∧ (k ≤ length ops)%nat
    ∧ (r = inr tt → k = length ops)
    ∧ (∀ e, r = inl e →
         ∃ j op, k = S j ∧ ops !! j = Some op ∧ library_step op = true)
    ∧ attr w' self "connected"
      = foldl flag_step (attr w self "connected") (take k ops).
Proof.
  intros Hw.
  destruct (session_run w cls self attrs id p h st ops Hw)
    as (r & k & cs & E & Hk & Hp & Hr & Hl).
  exists r, k. eexists. split; [exact E|].
  split; [done|]. split; [by intros Hn; destruct (Hr Hn)|]. split; [done|].
  destruct Hw as [Es Ei Ef Ep Est Hst].
  unfold attr at 1. rewrite (place_lookup_self _ _ _ _ _ _ Es Ep).
  rewrite attrs_after_flag. unfold attr. by rewrite Es.
Qed.

Lemma session_connected_witness :
  ∃ r k w',
    run_ops (H := ascii_runtime) CMQTTClient demo_client demo_ops demo = (r, w')
    ∧ (k ≤ length demo_ops)%nat
    ∧ (r = inr tt → k = length demo_ops)
    ∧ (∀ e, r = inl e →
         ∃ j op, k = S j ∧ demo_ops !! j = Some op ∧ library_step op = true)
    ∧ attr w' demo_client "connected"
      = foldl flag_step (attr demo demo_client "connected") (take k demo_ops).
Proof.
  exact (session_connected (H := ascii_runtime) _ _ _ _ _ _ _ _ demo_ops
           demo_client_wrapper).
Defined.

(** X2: over any such sequence, the calls that reach the underlying client
    are, in order, a first part of those of the [connect] and [publish]
    steps, and all of them when the run ends without an exception: each
    [connect] gives one [connect] call and, when [sub_topics] is a non-empty
    list, one [subscribe] call; each [publish] of a client gives one
    [publish] call unless [json.dumps] raises, and each [publish] of a
    server gives none; the callbacks call nothing.  The identifier of the
    handle and the callbacks set on it stay as they were. *)
Theorem session_calls `{PyRuntime} w cls self attrs id p h st (ops : list (Op PyDict)) :
  wrapper w cls self attrs id p h st →
  ∃ r w' h' cs,
    run_ops cls self ops w = (r, w')
    ∧ handle_of w' self (handle_field cls) = Some h'
    ∧ paho_calls h' = (paho_calls h ++ cs)%list
    ∧ cs `prefix_of` flat_map (op_calls cls id w st) ops
    ∧ (r = inr tt → cs = flat_map (op_calls cls id w st) ops)
    ∧ paho_attrs h' = paho_attrs h
    ∧ paho_client_id h' = paho_client_id h.
Proof.
  intros Hw.
  destruct (session_run w cls self attrs id p h st ops Hw)
    as (r & k & cs & E & Hk & Hp & Hr & Hl).
  exists r. eexists _, (called h cs), cs. split; [exact E|].
  destruct Hw as [Es Ei Ef Ep Est Hst].
  destruct (field_not_flag cls) as [Hf _].
  split.
  { unfold handle_of, attr. rewrite (place_lookup_self _ _ _ _ _ _ Es Ep).
    rewrite attrs_after_other by done. rewrite Ef. cbn [mbind option_bind].
    unfold handle. by erewrite place_lookup_handle. }
  split; [done|]. split; [done|]. split; [by intros Hn; destruct (Hr Hn)|done].
Qed.

Lemma session_calls_witness :
  ∃ r w' h' cs,
    run_ops (H := ascii_runtime) CMQTTClient demo_client demo_ops demo = (r, w')
    ∧ handle_of w' demo_client (handle_field CMQTTClient) = Some h'
    ∧ paho_calls h'
      = (paho_calls (mkPaho "c1" (client_callbacks demo_client) []) ++ cs)%list
    ∧ cs `prefix_of`
        flat_map (op_calls (H := ascii_runtime) CMQTTClient "c1" demo VNone) demo_ops
    ∧ (r = inr tt →
       cs = flat_map (op_calls (H := ascii_runtime) CMQTTClient "c1" demo VNone) demo_ops)
    ∧ paho_attrs h' = paho_attrs (mkPaho "c1" (client_callbacks demo_client) [])
    ∧ paho_client_id h' = paho_client_id (mkPaho "c1" (client_callbacks demo_client) []).
Proof.
  exact (session_calls (H := ascii_runtime) _ _ _ _ _ _ _ _ demo_ops
           demo_client_wrapper).
Defined.

(** X3: over any such sequence, the only output is one line
    ["<id> connected"] for each [on_connect] with [rc = 0] among the steps
    that were run, in order; a refused connection ([rc] not 0), a
    disconnection, and [connect] and [publish], whether they return or
    raise, print nothing. *)
Theorem session_stdout `{PyRuntime} w cls self attrs id p h st (ops : list (Op PyDict)) :
  wrapper w cls self attrs id p h st →
  ∃ r k w',
    run_ops cls self ops w = (r, w')
    ∧ (k ≤ length ops)%nat
    ∧ (r = inr tt → k = length ops)
    ∧ stdout w' = (stdout w ++ flat_map (op_lines id) (take k ops))%list.
Proof.
  intros Hw.
  destruct (session_run w cls self attrs id p h st ops Hw)
    as (r & k & cs & E & Hk & Hp & Hr & Hl).
  exists r, k. eexists. split; [exact E|].
  split; [done|]. split; [by intros Hn; destruct (Hr Hn)|done].
Qed.

Lemma session_stdout_witness :
  ∃ r k w',
    run_ops (H := ascii_runtime) CMQTTServer demo_server demo_ops demo = (r, w')
    ∧ (k ≤ length demo_ops)%nat
    ∧ (r = inr tt → k = length demo_ops)
    ∧ stdout w' = (stdout demo ++ flat_map (op_lines "server") (take k demo_ops))%list.
Proof.
  exact (session_stdout (H := ascii_runtime) _ _ _ _ _ _ _ _ demo_ops
           demo_server_wrapper).
Defined.

(** X4: over any such sequence, whether it ends or is cut short by an
    exception, a wrapper changes nothing but its own [connected] attribute
    and its handle: every other attribute of the instance keeps its value,
    the heap keeps its size, every other object is left as it was, and so
    the [sub_topics] list holds what it held. *)
Theorem session_frame `{PyRuntime} w cls self attrs id p h st (ops : list (Op PyDict)) :
  wrapper w cls self attrs id p h st →
  ∃ r w',
    run_ops cls self ops w = (r, w')
    ∧ (∀ name, name ≠ "connected" → attr w' self name = attr w self name)
    ∧ length (heap w') = length (heap w)
    ∧ (∀ l, l ≠ self → l ≠ p → heap w' !! l = heap w !! l)
    ∧ list_items w' st = list_items w st.
Proof.
  intros Hw.
  destruct (session_run w cls self attrs id p h st ops Hw)
    as (r & k & cs & E & Hk & Hp & Hr & Hl).
  exists r. eexists. split; [exact E|].
  destruct Hw as [Es Ei Ef Ep Est Hst].
  split.
  { intros name Hn. unfold attr at 1.
    rewrite (place_lookup_self _ _ _ _ _ _ Es Ep).
    rewrite attrs_after_other by done. unfold attr. by rewrite Es. }
  split; [apply place_length|].
  split; [by intros l H1 H2; apply place_lookup_other|].
  by eapply list_items_place.
Qed.

Lemma session_frame_witness :
  ∃ r w',
    run_ops (H := ascii_runtime) CMQTTServer demo_server demo_ops demo = (r, w')
    ∧ (∀ name, name ≠ "connected" →
         attr w' demo_server name = attr demo demo_server name)
    ∧ length (heap w') = length (heap demo)
    ∧ (∀ l, l ≠ demo_server → l ≠ demo_server_handle → heap w' !! l = heap demo !! l)
    ∧ list_items w' (VRef SUB_TOPICS_DEFAULT) = list_items demo (VRef SUB_TOPICS_DEFAULT).
Proof.
  exact (session_frame (H := ascii_runtime) _ _ _ _ _ _ _ _ demo_ops
           demo_server_wrapper).
Defined.

(** ** A new wrapper, used at once *)

Lemma wrapper_truthy w cls self attrs id p h st :
  wrapper w cls self attrs id p h st →
  ∃ b, truthy st w = (inr b, w)
       ∧ (if b then [PSubscribe st (list_items w st)] else []) = subscription w st.
Proof.
  intros [_ _ _ _ _ [->|(l & items & -> & El)]].
  - by exists false.
  - exists (match items with [] => false | _ => true end). split.
    + unfold truthy, bind, load. by rewrite El.
    + unfold subscription, list_items. rewrite El. by destruct items.
Qed.

Lemma wrapper_connect_run `{PyRuntime} cls w self attrs id p h st ip port keepalive :
  wrapper w cls self attrs id p h st →
  connect_of cls self ip port keepalive w
  = ((invoke_all h (PConnect ip (default 1883 port) (default 60 keepalive)
                    :: subscription w st)).1,
     update w p
       (OPaho (invoke_all h (PConnect ip (default 1883 port) (default 60 keepalive)
                             :: subscription w st)).2)).
Proof.
  intros Hw. destruct (wrapper_truthy _ _ _ _ _ _ _ _ Hw) as (b & Hb & Hs).
  destruct Hw as [Es Ei Ef Ep Est Hst].
  rewrite (connect_run cls w self attrs p h st b ip port keepalive Es Ef Ep Est Hb).
  by rewrite Hs.
Qed.

(** What [connect] leaves on the handle and what it returns, call by
    call. *)
Lemma invoke_connect_calls `{PyRuntime} h c w st :
  paho_calls (invoke_all h (c :: subscription w st)).2
  = (paho_calls h
     ++ c :: match paho_raises h c with
             | Some _ => []
             | None => subscription w st
             end)%list.
Proof.
  cbn [invoke_all]. destruct (paho_raises h c) as [e|]; [done|].
  unfold subscription. destruct (list_items w st) as [[|x xs]|]; cbn [invoke_all];
    try done.
  destruct (paho_raises _ _); cbn; by rewrite <- app_assoc.
Qed.

Lemma invoke_connect_result `{PyRuntime} h c w st :
  (invoke_all h (c :: subscription w st)).1
  = match paho_raises h c with
    | Some e => inl e
    | None =>
        match subscription w st with
        | [] => inr tt
        | s :: _ =>
            match paho_raises (called h [c]) s with
            | Some e => inl e
            | None => inr tt
            end
        end
    end.
Proof.
  cbn [invoke_all]. destruct (paho_raises h c) as [e|]; [done|].
  unfold subscription. destruct (list_items w st) as [[|x xs]|]; cbn [invoke_all];
    try done.
  by destruct (paho_raises _ _).
Qed.

(** The result of a script that ends with [ret a] after a call. *)
Lemma bind_then_ret {A} (m : M unit) (a : A) w r w' :
  m w = (r, w') →
  bind m (λ _, ret a) w
  = (match r with inl e => inl e | inr _ => inr a end, w').
Proof. intros E. unfold bind. rewrite E. by destruct r. Qed.

Lemma sub_ok_app w l out st :
  sub_ok w st →
  sub_ok (mkWorld (heap w ++ l) out) st
  ∧ list_items (mkWorld (heap w ++ l) out) st = list_items w st.
Proof.
  intros [->|(x & items & -> & El)]; [split; [by left|done]|].
  assert (E : (heap w ++ l)%list !! x = Some (OList items))
    by (rewrite lookup_app_l; [done|by eapply lookup_lt_Some]).
  split.
  - right. by exists x, items.
  - unfold list_items. cbn [heap]. by rewrite E, El.
Qed.

Lemma subscription_app w l out st :
  sub_ok w st → subscription (mkWorld (heap w ++ l) out) st = subscription w st.
Proof.
  intros Hst. unfold subscription. by rewrite (proj2 (sub_ok_app w l out st Hst)).
Qed.

Lemma new_client_wrapper `{PyRuntime} w client_id st :
  sub_ok w st →
  wrapper
    (mkWorld
       (heap w ++
          [OInstance CMQTTClient (client_attrs (length (heap w)) client_id st);
           OPaho (mkPaho (str_strip client_id) (client_callbacks (length (heap w))) [])])
       (stdout w))
    CMQTTClient (length (heap w)) (client_attrs (length (heap w)) client_id st)
    (str_strip client_id) (S (length (heap w)))
    (mkPaho (str_strip client_id) (client_callbacks (length (heap w))) []) st.
Proof.
  intros Hst. split; try reflexivity.
  - cbn [heap]. by rewrite lookup_new_0.
  - cbn [heap]. by rewrite lookup_new_1.
  - by apply sub_ok_app.
Qed.

Lemma new_server_wrapper `{PyRuntime} w server_id username password st :
  sub_ok w st →
  wrapper
    (mkWorld
       (heap w ++
          [OInstance CMQTTServer (server_attrs (length (heap w)) server_id st);
           OPaho (mkPaho (str_strip server_id) (server_callbacks (length (heap w)))
                    (credentials username password));
           OFunction CodeDefaultOnMessage;
           ODict ∅])
       (stdout w))
    CMQTTServer (length (heap w)) (server_attrs (length (heap w)) server_id st)
    (str_strip server_id) (S (length (heap w)))
    (mkPaho (str_strip server_id) (server_callbacks (length (heap w)))
       (credentials username password)) st.
Proof.
  intros Hst. split; try reflexivity.
  - cbn [heap]. by rewrite lookup_new_0.
  - cbn [heap]. by rewrite lookup_new_1.
  - by apply sub_ok_app.
Qed.

Lemma wrapper_calls_update w cls self attrs id p h st h' :
  wrapper w cls self attrs id p h st →
  calls_of (update w p (OPaho h')) cls self = Some (paho_calls h').
Proof. intros [Es Ei Ef Ep Est Hst]. by eapply calls_of_update. Qed.

Lemma wrapper_attr_update w cls self attrs id p h st h' name :
  wrapper w cls self attrs id p h st →
  attr (update w p (OPaho h')) self name = attrs !! name.
Proof.
  intros [Es Ei Ef Ep Est Hst].
  rewrite attr_update_other by (intros ->; congruence).
  unfold attr. by rewrite Es.
Qed.

(** X5: a client that is constructed and connected at once.  The calls on
    its handle are one [connect], with the port defaulting to 1883 and the
    keepalive to 60, and then, when that call returns and [sub_topics] is a
    non-empty list, one [subscribe]; there is none when [connect] raises, or
    when [sub_topics] was left out, is [None] or is empty.  The script ends
    with the exception of the first call that raises, if one does.
    [connected] is still [False] afterwards: only the [on_connect] callback
    sets it. *)
Theorem new_client_connect_calls `{PyRuntime} client_id sub_topics ip port keepalive w :
  sub_ok w (default VNone sub_topics) →
  let n := length (heap w) in
  let h := mkPaho (str_strip client_id) (client_callbacks n) [] in
  let c := PConnect ip (default 1883 port) (default 60 keepalive) in
  let subs := subscription w (default VNone sub_topics) in
  ∃ r w',
    new_client_connect client_id sub_topics ip port keepalive w = (r, w')
    ∧ calls_of w' CMQTTClient n
      = Some (c :: match paho_raises h c with
                   | Some _ => []
                   | None => subs
                   end)
    ∧ r = match paho_raises h c with
          | Some e => inl e
          | None =>
              match subs with
              | [] => inr n
              | s :: _ =>
                  match paho_raises (called h [c]) s with
                  | Some e => inl e
                  | None => inr n
                  end
              end
          end
    ∧ attr w' n "connected" = Some (VBool false).
Proof.
  intros Hst n h c subs.
  pose proof (new_client_wrapper w client_id _ Hst) as Hw.
  pose proof (wrapper_connect_run CMQTTClient _ _ _ _ _ _ _ ip port keepalive Hw) as R.
  rewrite subscription_app in R by done. fold n h c subs in R.
  eexists _, _. split.
  { unfold new_client_connect.
    etrans; [eapply bind_ok; apply client_init_run|].
    exact (bind_then_ret _ _ _ _ _ R). }
  split.
  { rewrite (wrapper_calls_update _ _ _ _ _ _ _ _ _ Hw).
    unfold subs. by rewrite invoke_connect_calls. }
  split.
  { unfold subs. rewrite invoke_connect_result. fold subs.
    destruct (paho_raises h c); [done|]. destruct subs as [|s ?]; [done|].
    by destruct (paho_raises (called h [c]) s). }
  by rewrite (wrapper_attr_update _ _ _ _ _ _ _ _ _ _ Hw).
Qed.

Lemma new_client_connect_calls_witness :
  ∃ r w',
    new_client_connect (H := ascii_runtime) " c2 " (Some (VRef SUB_TOPICS_DEFAULT))
      "10.0.0.1" (Some 8883) None demo
    = (r, w')
    ∧ calls_of w' CMQTTClient (length (heap demo))
      = Some (PConnect "10.0.0.1" 8883 60
              :: subscription demo (default VNone (Some (VRef SUB_TOPICS_DEFAULT))))
    ∧ r = inr (length (heap demo))
    ∧ attr w' (length (heap demo)) "connected" = Some (VBool false).
Proof.
  refine (new_client_connect_calls (H := ascii_runtime) " c2 "
            (Some (VRef SUB_TOPICS_DEFAULT)) "10.0.0.1" (Some 8883) None demo _).
  right. exists SUB_TOPICS_DEFAULT, [("client/+", 0)]. split; reflexivity.
Defined.

(** X6: a server that is constructed and connected at once.  The calls on
    its handle are [username_pw_set] when a credential is truthy, then one
    [connect], and then, when that call returns and [sub_topics] is a
    non-empty list, one [subscribe].  With [sub_topics] left out the list is
    the shared default, as it is at that moment: a default that has been
    emptied in place gives a server that subscribes to nothing.  The script
    ends with the exception of the first call that raises, if one does, and
    [connected] is still [False] afterwards. *)
Theorem new_server_connect_calls `{PyRuntime} server_id username password sub_topics
    ip port keepalive w :
  sub_ok w (default (VRef SUB_TOPICS_DEFAULT) sub_topics) →
  let n := length (heap w) in
  let h := mkPaho (str_strip (default "server" server_id)) (server_callbacks n)
             (if truthy_str username || truthy_str password
              then [PUsernamePwSet username password] else []) in
  let c := PConnect ip (default 1883 port) (default 60 keepalive) in
  let subs := subscription w (default (VRef SUB_TOPICS_DEFAULT) sub_topics) in
  ∃ r w',
    new_server_connect server_id username password sub_topics ip port keepalive w
    = (r, w')
    ∧ calls_of w' CMQTTServer n
      = Some (paho_calls h
              ++ c :: match paho_raises h c with
                      | Some _ => []
                      | None => subs
                      end)%list
    ∧ r = match paho_raises h c with
          | Some e => inl e
          | None =>
              match subs with
              | [] => inr n
              | s :: _ =>
                  match paho_raises (called h [c]) s with
                  | Some e => inl e
                  | None => inr n
                  end
              end
          end
    ∧ attr w' n "connected" = Some (VBool false).
Proof.
  intros Hst n h c subs.
  pose proof (new_server_wrapper w (default "server" server_id) username password _ Hst)
    as Hw.
  pose proof (wrapper_connect_run CMQTTServer _ _ _ _ _ _ _ ip port keepalive Hw) as R.
  rewrite subscription_app in R by done.
  change (mkPaho (str_strip (default "server" server_id))
            (server_callbacks (length (heap w))) (credentials username password))
    with h in R.
  fold n c subs in R.
  eexists _, _. split.
  { unfold new_server_connect.
    etrans; [eapply bind_ok; apply server_init_run|].
    exact (bind_then_ret _ _ _ _ _ R). }
  split.
  { rewrite (wrapper_calls_update _ _ _ _ _ _ _ _ _ Hw).
    unfold subs. by rewrite invoke_connect_calls. }
  split.
  { unfold subs. rewrite invoke_connect_result. fold subs.
    destruct (paho_raises h c); [done|]. destruct subs as [|s ?]; [done|].
    by destruct (paho_raises (called h [c]) s). }
  by rewrite (wrapper_attr_update _ _ _ _ _ _ _ _ _ _ Hw).
Qed.

Lemma new_server_connect_calls_witness :
  ∃ r w',
    new_server_connect (H := ascii_runtime) None (Some "user") None None
      "10.0.0.1" None None module_world
    = (r, w')
    ∧ calls_of w' CMQTTServer (length (heap module_world))
      = Some ([PUsernamePwSet (Some "user") None]
              ++ PConnect "10.0.0.1" 1883 60
                 :: subscription module_world
                      (default (VRef SUB_TOPICS_DEFAULT) None))%list
    ∧ r = inr (length (heap module_world))
    ∧ attr w' (length (heap module_world)) "connected" = Some (VBool false).
Proof.
  refine (new_server_connect_calls (H := ascii_runtime) None (Some "user") None None
            "10.0.0.1" None None module_world _).
  right. exists SUB_TOPICS_DEFAULT, [("client/+", 0)]. split; reflexivity.
Defined.

(** X7: [publish] asks for no connection.  A client that has just been
    constructed, with [connected] still [False] and no [connect] made, hands
    its message to the underlying client all the same: unless [json.dumps]
    raises on a dict message, there is one [publish] call, on the given
    topic or, without one, on ["client/"] followed by the stripped
    [client_id]; the script ends with what [json.dumps] or that call
    raises, if either does. *)
Theorem new_client_publish_calls `{PyRuntime} client_id sub_topics message topic w :
  let n := length (heap w) in
  let h := mkPaho (str_strip client_id) (client_callbacks n) [] in
  let t := topic_of (str_strip client_id) topic in
  ∃ r w',
    new_client_publish client_id sub_topics message topic w = (r, w')
    ∧ match payload_of message with
      | inl e => r = inl e ∧ calls_of w' CMQTTClient n = Some []
      | inr payload =>
          r = match paho_raises h (PPublish t payload) with
              | Some e => inl e
              | None => inr n
              end
          ∧ calls_of w' CMQTTClient n = Some [PPublish t payload]
      end
    ∧ attr w' n "connected" = Some (VBool false)
    ∧ attr w' n "client_id" = Some (VStr (str_strip client_id)).
Proof.
  intros n h t.
  set (attrs := client_attrs n client_id (default VNone sub_topics)).
  set (w1 := mkWorld (heap w ++ [OInstance CMQTTClient attrs; OPaho h]) (stdout w)).
  assert (Es : heap w1 !! n = Some (OInstance CMQTTClient attrs))
    by (unfold w1, n; cbn [heap]; by rewrite lookup_new_0).
  assert (Ep : heap w1 !! S n = Some (OPaho h))
    by (unfold w1, n; cbn [heap]; by rewrite lookup_new_1).
  assert (Ef : attrs !! "mqtt_client" = Some (VRef (S n))) by reflexivity.
  assert (Ei : attrs !! "client_id" = Some (VStr (str_strip client_id))) by reflexivity.
  assert (Hne : S n ≠ n) by lia.
  assert (Ha : ∀ name, attr w1 n name = attrs !! name)
    by (intros name; unfold attr; by rewrite Es).
  pose proof (client_publish_run w1 n attrs (S n) h _ message topic Es Ef Ep Ei) as R.
  fold t in R.
  assert (I : ∀ r w', MQTTClient.publish n message topic w1 = (r, w') →
      new_client_publish client_id sub_topics message topic w
      = (match r with inl e => inl e | inr _ => inr n end, w')).
  { intros r w' E. unfold new_client_publish.
    etrans; [eapply bind_ok; apply client_init_run|].
    exact (bind_then_ret _ _ _ _ _ E). }
  destruct (payload_of message) as [e|payload].
  - exists (inl e), w1. split; [exact (I _ _ R)|].
    split; [|by rewrite !Ha].
    split; [done|]. by rewrite (calls_of_ok w1 CMQTTClient n attrs (S n) h).
  - eexists _, _. split; [exact (I _ _ R)|].
    split; [|by rewrite !attr_update_other, !Ha by done].
    split; [unfold outcome; by destruct (paho_raises h (PPublish t payload))|].
    by rewrite (calls_of_update _ CMQTTClient _ _ _ _ _ Es Ef Ep).
Qed.

(** X9: a [sub_topics] list given to the constructor is kept by reference,
    not copied: what [connect] subscribes to, when the underlying [connect]
    returns, is what the caller's list holds when [connect] runs, changes
    made in place after the construction included, and nothing when the list
    has been emptied. *)
Theorem client_list_by_reference `{PyRuntime} client_id xs items f ip port keepalive w :
  heap w !! xs = Some (OList items) →
  let n := length (heap w) in
  let h := mkPaho (str_strip client_id) (client_callbacks n) [] in
  let c := PConnect ip (default 1883 port) (default 60 keepalive) in
  let subs :=
    match f items with
    | [] => []
    | _ => [PSubscribe (VRef xs) (Some (f items))]
    end in
  ∃ r w',
    client_list_session client_id xs f ip port keepalive w = (r, w')
    ∧ attr w' n "sub_topics" = Some (VRef xs)
    ∧ list_items w' (VRef xs) = Some (f items)
    ∧ calls_of w' CMQTTClient n
      = Some (c :: match paho_raises h c with
                   | Some _ => []
                   | None => subs
                   end)
    ∧ r = match paho_raises h c with
          | Some e => inl e
          | None =>
              match subs with
              | [] => inr n
              | s :: _ =>
                  match paho_raises (called h [c]) s with
                  | Some e => inl e
                  | None => inr n
                  end
              end
          end.
Proof.
  intros Ex n h c subs.
  assert (Hst : sub_ok w (VRef xs)) by (right; by exists xs, items).
  pose proof (new_client_wrapper w client_id _ Hst) as Hw.
  fold n h in Hw.
  set (attrs := client_attrs n client_id (VRef xs)) in *.
  set (w1 := mkWorld (heap w ++ [OInstance CMQTTClient attrs; OPaho h]) (stdout w)) in *.
  assert (Ex1 : heap w1 !! xs = Some (OList items)).
  { unfold w1. cbn [heap]. rewrite lookup_app_l; [done|by eapply lookup_lt_Some]. }
  set (w2 := update w1 xs (OList (f items))).
  assert (Hxn : xs ≠ n) by (apply lookup_lt_Some in Ex; unfold n; lia).
  assert (Hxp : xs ≠ S n) by (apply lookup_lt_Some in Ex; unfold n; lia).
  assert (Ex2 : heap w2 !! xs = Some (OList (f items)))
    by (by eapply lookup_update_eq).
  assert (Hw2 : wrapper w2 CMQTTClient n attrs (str_strip client_id) (S n) h (VRef xs)).
  { destruct Hw as [Es Ei Ef Ep Est _]. split; try done.
    - unfold w2. by rewrite lookup_update_ne.
    - unfold w2. by rewrite lookup_update_ne.
    - right. by exists xs, (f items). }
  assert (Hsub : subscription w2 (VRef xs) = subs).
  { unfold subscription, list_items, subs. rewrite Ex2. by destruct (f items). }
  pose proof (wrapper_connect_run CMQTTClient _ _ _ _ _ _ _ ip port keepalive Hw2) as R.
  fold c in R.
  eexists _, _. split.
  { unfold client_list_session.
    etrans; [eapply bind_ok; apply client_init_run|]. cbn [default]. fold n attrs h w1.
    etrans; [eapply bind_ok; by eapply list_mutate_ok|]. fold w2.
    exact (bind_then_ret _ _ _ _ _ R). }
  split; [by rewrite (wrapper_attr_update _ _ _ _ _ _ _ _ _ _ Hw2)|].
  split.
  { unfold list_items. rewrite lookup_update_ne by done. by rewrite Ex2. }
  split.
  { rewrite (wrapper_calls_update _ _ _ _ _ _ _ _ _ Hw2).
    by rewrite invoke_connect_calls, Hsub. }
  rewrite invoke_connect_result, Hsub.
  destruct (paho_raises h c); [done|]. destruct subs as [|s ?]; [done|].
  by destruct (paho_raises (called h [c]) s).
Qed.

Lemma client_list_by_reference_witness :
  ∃ r w',
    client_list_session (H := ascii_runtime) "c3" SUB_TOPICS_DEFAULT
      (λ items, (items ++ [("extra/#", 1)])%list) "10.0.0.1" None None demo
    = (r, w')
    ∧ attr w' (length (heap demo)) "sub_topics" = Some (VRef SUB_TOPICS_DEFAULT)
    ∧ list_items w' (VRef SUB_TOPICS_DEFAULT)
      = Some ([("client/+", 0)] ++ [("extra/#", 1)])%list
    ∧ calls_of w' CMQTTClient (length (heap demo))
      = Some [PConnect "10.0.0.1" 1883 60;
              PSubscribe (VRef SUB_TOPICS_DEFAULT)
                (Some [("client/+", 0); ("extra/#", 1)])]
    ∧ r = inr (length (heap demo)).
Proof.
  exact (client_list_by_reference (H := ascii_runtime) "c3" SUB_TOPICS_DEFAULT
           [("client/+", 0)] (λ items, (items ++ [("extra/#", 1)])%list)
           "10.0.0.1" None None demo eq_refl).
Defined.

(** ** Objects of their own, reads and assignments *)

(** X8: unlike the default of [sub_topics], nothing else is shared between
    servers: each constructor call makes its own handle and its own empty
    [connected_clients] dict, both new objects, so those of two servers are
    different objects whatever the arguments. *)
Theorem servers_share_nothing_else `{PyRuntime} id1 u1 p1 id2 u2 p2 st1 st2 w :
  ∃ s1 s2 h1 h2 d1 d2 w',
    two_new_servers id1 u1 p1 id2 u2 p2 st1 st2 w = (inr (s1, s2), w')
    ∧ attr w' s1 "mqtt_server" = Some (VRef h1)
    ∧ attr w' s2 "mqtt_server" = Some (VRef h2)
    ∧ attr w' s1 "connected_clients" = Some (VRef d1)
    ∧ attr w' s2 "connected_clients" = Some (VRef d2)
    ∧ h1 ≠ h2 ∧ d1 ≠ d2
    ∧ heap w !! h1 = None ∧ heap w !! h2 = None
    ∧ heap w !! d1 = None ∧ heap w !! d2 = None
    ∧ heap w' !! d1 = Some (ODict ∅) ∧ heap w' !! d2 = Some (ODict ∅).
Proof.
  set (n := length (heap w)).
  set (a1 := server_attrs n (default "server" id1)
               (default (VRef SUB_TOPICS_DEFAULT) st1)).
  set (a2 := server_attrs (n + 4) (default "server" id2)
               (default (VRef SUB_TOPICS_DEFAULT) st2)).
  set (l1 := [OInstance CMQTTServer a1;
              OPaho (mkPaho (str_strip (default "server" id1)) (server_callbacks n)
                       (credentials u1 p1));
              OFunction CodeDefaultOnMessage; ODict ∅]).
  set (l2 := [OInstance CMQTTServer a2;
              OPaho (mkPaho (str_strip (default "server" id2))
                       (server_callbacks (n + 4)) (credentials u2 p2));
              OFunction CodeDefaultOnMessage; ODict ∅]).
  set (w2 := mkWorld ((heap w ++ l1) ++ l2) (stdout w)).
  assert (Hl : length (heap w ++ l1) = (n + 4)%nat) by (by rewrite length_app).
  assert (R : two_new_servers id1 u1 p1 id2 u2 p2 st1 st2 w
              = (inr (n, (n + 4)%nat), w2)).
  { unfold two_new_servers.
    etrans; [eapply bind_ok; apply server_init_run|].
    etrans; [eapply bind_ok; apply server_init_run|].
    cbn [heap stdout]. fold n a1 l1. rewrite Hl. reflexivity. }
  assert (L1 : ∀ k o, l1 !! k = Some o → heap w2 !! (n + k)%nat = Some o).
  { intros k o E. unfold w2. cbn [heap].
    rewrite lookup_app_l
      by (rewrite Hl; apply lookup_lt_Some in E; cbn in E; lia).
    unfold n. by rewrite lookup_new. }
  assert (L2 : ∀ k o, l2 !! k = Some o → heap w2 !! (n + 4 + k)%nat = Some o).
  { intros k o E. unfold w2. cbn [heap]. rewrite <- Hl. by rewrite lookup_new. }
  assert (E1 : heap w2 !! n = Some (OInstance CMQTTServer a1)).
  { rewrite <- (L1 0%nat _ eq_refl). f_equal. lia. }
  assert (E2 : heap w2 !! (n + 4)%nat = Some (OInstance CMQTTServer a2)).
  { rewrite <- (L2 0%nat _ eq_refl). f_equal. lia. }
  exists n, (n + 4)%nat, (S n), (S (n + 4)), (n + 3)%nat, (n + 4 + 3)%nat, w2.
  split; [exact R|].
  unfold attr. rewrite E1, E2.
  repeat split; try reflexivity; try lia;
    try (apply lookup_ge_None_2; unfold n; lia).
  - exact (L1 3%nat _ eq_refl).
  - exact (L2 3%nat _ eq_refl).
Qed.

(** X10: [server.on_message is server.on_message] is false.  Two reads of
    the property return two different function objects, both new and both
    with the code of [default_on_message]; each read adds one object to the
    heap and changes none that was there, so neither result is the handler
    that the underlying client holds. *)
Theorem reads_are_distinct w self :
  ∃ f1 f2 w',
    read_twice self w = (inr (VRef f1, VRef f2), w')
    ∧ f1 ≠ f2
    ∧ heap w !! f1 = None ∧ heap w !! f2 = None
    ∧ code_of w' (VRef f1) = Some CodeDefaultOnMessage
    ∧ code_of w' (VRef f2) = Some CodeDefaultOnMessage
    ∧ heap w `prefix_of` heap w'
    ∧ length (heap w') = (length (heap w) + 2)%nat
    ∧ stdout w' = stdout w.
Proof.
  exists (length (heap w)), (S (length (heap w))),
    (mkWorld (heap w ++ [OFunction CodeDefaultOnMessage; OFunction CodeDefaultOnMessage])
       (stdout w)).
  split.
  { unfold read_twice.
    etrans; [eapply bind_ok; apply getter_run|].
    etrans; [eapply bind_ok; apply getter_run|].
    cbn [heap stdout]. rewrite length_app, <- app_assoc. cbn [length app].
    by rewrite Nat.add_1_r. }
  split; [lia|].
  split; [by apply lookup_ge_None_2|].
  split; [apply lookup_ge_None_2; lia|].
  unfold code_of. cbn [heap stdout].
  rewrite lookup_new_0, lookup_new_1.
  repeat split; try done.
  - by eexists.
  - rewrite length_app. cbn. lia.
Qed.

(** X11: assignments to [server.on_message] do not accumulate: the second
    one replaces the first, and the world after both is the world after the
    second alone. *)
Theorem setter_last_wins w self attrs p h c1 c2 :
  heap w !! self = Some (OInstance CMQTTServer attrs) →
  attrs !! "mqtt_server" = Some (VRef p) →
  heap w !! p = Some (OPaho h) →
  (MQTTServer.on_message_setter self c1 ;; MQTTServer.on_message_setter self c2) w
  = MQTTServer.on_message_setter self c2 w.
Proof.
  intros Es Ef Ep.
  assert (Hne : p ≠ self) by (intros ->; congruence).
  etrans; [eapply bind_ok; by eapply setter_run|].
  erewrite setter_run; [|by rewrite lookup_update_ne|done|by eapply lookup_update_eq].
  rewrite (setter_run w self attrs p h c2 Es Ef Ep).
  rewrite update_update. cbn [paho_client_id paho_attrs paho_calls].
  by rewrite insert_insert_eq.
Qed.

Lemma setter_last_wins_witness :
  (MQTTServer.on_message_setter demo_server (VRef CLIENT_ON_MESSAGE) ;;
   MQTTServer.on_message_setter demo_server (VBound OnConnect demo_client)) demo
  = MQTTServer.on_message_setter demo_server (VBound OnConnect demo_client) demo.
Proof.
  exact (setter_last_wins demo demo_server
           (server_attrs (H := ascii_runtime) demo_server "server"
              (VRef SUB_TOPICS_DEFAULT))
           demo_server_handle (mkPaho "server" (server_callbacks demo_server) [])
           (VRef CLIENT_ON_MESSAGE) (VBound OnConnect demo_client)
           eq_refl eq_refl eq_refl).
Defined.
